(** * The neonatal bilirubin risk engine (tcb-calculator)

    A shallow embedding of the calculation engine [bilirubinCalculator]
    and of the properties its specification states about it.

    The repository holds two copies of the engine.  They agree word for
    word on the nomogram tables, on [linearInterpolate], [getBhutaniZone],
    [getAapThresholds] and on the body of [calculateBilirubinRisk]; they
    differ in [maiselsData] and [getMaiselsThresholds] only:
    - the copy of src/unnamed/part_001 (lines 1-167) keeps one number per
      Maisels band and answers ABOVE or BELOW;
    - the copy of src/unnamed/part_000 (lines 1532-1709) keeps a range
      [min, max] per band, answers ABOVE, WITHIN or BELOW and reports the
      threshold as the text "min-max".
    The shared functions are embedded once; the parts that differ live in
    the modules [Part001] and [Part000].

    Modelling choices.
    - A JavaScript number is an exact rational ([Q]).  Every table entry is
      a dyadic rational, comparisons are exact, and the rounding error of
      IEEE doubles, NaN and the infinities have no counterpart here.
      [gestationalWeeks] and [gestationalDays] are integers ([Z]), as the
      form hands them over and as the template literal prints them.
    - A JavaScript string is a [string]: a sequence of 8-bit code units.
    - A call that raises ([points[0][0]] on an empty table) is the
      completion [Thrown]; [null] is [None].
    - [Date] belongs to the host.  The engine is parameterised by a [Host]
      giving [Date.parse] (the time value in milliseconds, [None] for an
      invalid date) and the two locale printers.

    The form component of src/App.tsx that calls the engine is embedded
    too, as far as its handlers compute: [handleSubmit],
    [handleSetCurrentTime] and the parts of the clipboard text that are
    computed from the form.  The conversions [parseFloat] and [parseInt]
    are left to the platform, like [Date] ([Conversions]). *)

From Stdlib Require Import ZArith QArith Qround Qabs Lqa Lia.
From Stdlib Require Import List String Ascii Bool DecimalString.
Import ListNotations.
Local Open Scope Q_scope.

(** ** Numbers and comparisons *)

Declare Scope num_scope.
Delimit Scope num_scope with num.

Definition leb (a b : Q) : bool := Qle_bool a b.
Definition geb (a b : Q) : bool := Qle_bool b a.
Definition ltb (a b : Q) : bool := negb (Qle_bool b a).
Definition gtb (a b : Q) : bool := negb (Qle_bool a b).
(** [===] on two numbers. *)
Definition eqb (a b : Q) : bool := Qeq_bool a b.

Notation "a <=? b" := (leb a b) (at level 70, no associativity) : num_scope.
Notation "a >=? b" := (geb a b) (at level 70, no associativity) : num_scope.
Notation "a <? b" := (ltb a b) (at level 70, no associativity) : num_scope.
Notation "a >? b" := (gtb a b) (at level 70, no associativity) : num_scope.
Notation "a === b" := (eqb a b) (at level 70, no associativity) : num_scope.
Local Open Scope num_scope.

(** [parseFloat(x.toFixed(fractionDigits))].  [toFixed] takes the sign
    apart, picks the integer [n] with [n / 10^f] nearest to [|x|] (the
    larger one on a tie) and prints it with [f] decimals; from [10^21] on
    it prints the number itself.  [parseFloat] reads the text back. *)
Definition parseFloat_toFixed (x : Q) (fractionDigits : nat) : Q :=
  if Qabs x >=? inject_Z (10 ^ 21) then Qred x
  else
    let scale := inject_Z (10 ^ Z.of_nat fractionDigits) in
    let n := Qfloor (Qabs x * scale + (1 # 2)) in
    Qred ((if x <? 0 then - inject_Z n else inject_Z n) / scale).

(** [`${n}`] for an integer [n] (plain decimal digits, a leading [-] when
    negative; exponent notation only starts at [10^21]). *)
Definition Number_toString (n : Z) : string :=
  NilZero.string_of_int (Z.to_int n).

(** ** Completions *)

Inductive completion (A : Type) : Type :=
| Normal (a : A)
| Thrown.
Arguments Normal {A} a.
Arguments Thrown {A}.

Definition bind {A B : Type} (c : completion A) (k : A -> completion B)
  : completion B :=
  match c with
  | Normal a => k a
  | Thrown => Thrown
  end.

Notation "x <- c ;; k" := (bind c (fun x => k))
  (at level 61, c at next level, right associativity).

(** ** types.ts *)

Inductive BhutaniRiskZone : Type :=
| High | HighIntermediate | LowIntermediate | Low | NotApplicable.

Record CalculationInput : Type := mkInput {
  birthDateTime : string;
  measurementDateTime : string;
  tcbValue : Q;
  gestationalWeeks : Z;
  gestationalDays : Z;
  hasRiskFactors : bool
}.

Inductive ThresholdStatus : Type := ABOVE | BELOW | WITHIN | NA.

(** [threshold: number | string] *)
Inductive ThresholdValue : Type :=
| TNumber (n : Q)
| TString (s : string).

Record ThresholdResult : Type := mkThreshold {
  status : ThresholdStatus;
  threshold : ThresholdValue
}.

Record CalculationResult : Type := mkResult {
  dob : string;
  tob : string;
  hol : Q;
  tcb : Q;
  aog : string;
  bhutaniZone : BhutaniRiskZone;
  phototherapy : ThresholdResult;
  exchangeTransfusion : ThresholdResult
}.

(** The object [{ phototherapy, exchangeTransfusion }] that
    [getAapThresholds] and [getMaiselsThresholds] return. *)
Record TherapyThresholds : Type := mkTherapy {
  th_phototherapy : ThresholdResult;
  th_exchangeTransfusion : ThresholdResult
}.

(** ** Nomogram tables *)

Definition Point : Type := (Q * Q)%type.
Definition DataPoints : Type := list Point.

Module bhutaniData.
Definition low : DataPoints :=
  [(12, 3.5); (24, 5.5); (36, 7.5); (48, 8.5); (60, 9); (96, 11.5); (144, 12.5)].
Definition lowIntermediate : DataPoints :=
  [(12, 5); (24, 7.5); (36, 9.5); (48, 11); (60, 12); (96, 13.5); (144, 15)].
Definition highIntermediate : DataPoints :=
  [(12, 6.5); (24, 9.5); (36, 12); (48, 13.5); (60, 15); (96, 17); (144, 17.5)].
End bhutaniData.

Module aapPlData.
Definition lowerRisk : DataPoints :=
  [(0, 5); (24, 12); (48, 15); (72, 18); (96, 20); (120, 21); (168, 21.5)].
Definition mediumRisk : DataPoints :=
  [(0, 4); (24, 10); (48, 13); (72, 15); (96, 17); (120, 18); (168, 18.5)].
Definition higherRisk : DataPoints :=
  [(0, 3); (24, 8); (48, 11); (72, 13); (96, 14.5); (120, 15.5); (168, 16)].
End aapPlData.

Module aapDvetData.
Definition lowerRisk : DataPoints :=
  [(0, 12); (24, 19); (48, 22); (72, 24); (96, 25); (168, 25)].
Definition mediumRisk : DataPoints :=
  [(0, 10); (24, 17); (48, 19); (72, 21); (96, 22.5); (168, 23)].
Definition higherRisk : DataPoints :=
  [(0, 8); (24, 15); (48, 17); (72, 18.5); (96, 20); (168, 20.5)].
End aapDvetData.

(** ** linearInterpolate *)

(** [points.findIndex(f)]: the position at which [points.find(f)] stops. *)
Fixpoint findIndex {A : Type} (f : A -> bool) (l : list A) : option nat :=
  match l with
  | [] => None
  | a :: l' => if f a then Some O else option_map S (findIndex f l')
  end.

(** The index of [p1] in [points]: where [find] stopped, or the last index
    when it found nothing.  [lastIndexOf] compares rows by identity and the
    rows of a table are distinct objects, so it returns that index. *)
Definition rightIndex (points : DataPoints) (x : Q) : nat :=
  match findIndex (fun p => fst p >=? x) points with
  | Some i => i
  | None => (List.length points - 1)%nat
  end.

(** The pair [(p0, p1)]; [points[i - 1] || points[0]] falls back to the
    first row only at [i = 0], where [points[-1]] is [undefined]. *)
Definition bracket (first : Point) (points : DataPoints) (x : Q)
  : Point * Point :=
  let i := rightIndex points x in
  (match i with
   | O => first
   | S i0 => nth i0 points first
   end,
   nth i points first).

Definition linearInterpolate (points : DataPoints) (x : Q) : completion Q :=
  match points with
  | [] => Thrown
  | first :: _ =>
      if x <=? fst first then Normal (snd first)
      else if x >=? fst (last points first) then Normal (snd (last points first))
      else
        let '((x0, y0), (x1, y1)) := bracket first points x in
        if x1 === x0 then Normal y0
        else Normal (y0 + (x - x0) * (y1 - y0) / (x1 - x0))
  end.

(** ** getBhutaniZone *)

Definition getBhutaniZone (hol tcb : Q) : completion BhutaniRiskZone :=
  if hol >? 144 then Normal NotApplicable
  else
    highIntermediateThreshold <- linearInterpolate bhutaniData.highIntermediate hol ;;
    if tcb >? highIntermediateThreshold then Normal High
    else
      lowIntermediateThreshold <- linearInterpolate bhutaniData.lowIntermediate hol ;;
      if tcb >? lowIntermediateThreshold then Normal HighIntermediate
      else
        lowThreshold <- linearInterpolate bhutaniData.low hol ;;
        if tcb >? lowThreshold then Normal LowIntermediate
        else Normal Low.

(** ** getAapThresholds *)

(** The curve pair [(plCurve, dvetCurve)] chosen by age and risk flag. *)
Definition aapCurves (aog : Q) (hasRiskFactors : bool)
  : DataPoints * DataPoints :=
  if aog >=? 38 then
    if hasRiskFactors
    then (aapPlData.mediumRisk, aapDvetData.mediumRisk)
    else (aapPlData.lowerRisk, aapDvetData.lowerRisk)
  else
    if hasRiskFactors
    then (aapPlData.higherRisk, aapDvetData.higherRisk)
    else (aapPlData.mediumRisk, aapDvetData.mediumRisk).

Definition getAapThresholds (hol aog : Q) (hasRiskFactors : bool) (tcb : Q)
  : completion TherapyThresholds :=
  let '(plCurve, dvetCurve) := aapCurves aog hasRiskFactors in
  plThreshold <- linearInterpolate plCurve hol ;;
  dvetThreshold <- linearInterpolate dvetCurve hol ;;
  Normal {|
    th_phototherapy := {|
      status := if tcb >=? plThreshold then ABOVE else BELOW;
      threshold := TNumber (parseFloat_toFixed plThreshold 2) |};
    th_exchangeTransfusion := {|
      status := if tcb >=? dvetThreshold then ABOVE else BELOW;
      threshold := TNumber (parseFloat_toFixed dvetThreshold 2) |}
  |}.

(** ** formatDateTime *)

(** [\s] on 8-bit code units: TAB, LF, VT, FF, CR, SPACE and NBSP. *)
Definition isWhiteSpace (c : ascii) : bool :=
  let n := N_of_ascii c in
  ((9 <=? n) && (n <=? 13) || (n =? 32) || (n =? 160))%N.

(** [dt.replace(/\//g, '-')] *)
Fixpoint replaceAllSlash (dt : string) : string :=
  match dt with
  | EmptyString => EmptyString
  | String c rest =>
      String (if Ascii.eqb c "/" then "-"%char else c) (replaceAllSlash rest)
  end.

(** The text left once a greedy [\s+] has been consumed. *)
Fixpoint skipWhiteSpace (s : string) : string :=
  match s with
  | EmptyString => EmptyString
  | String c rest => if isWhiteSpace c then skipWhiteSpace rest else s
  end.

(** A match of [\s+-\s+|\s+] anchored at the start of [s]: the text that
    follows the match, or [None].  The first alternative is tried first;
    its leading [\s+] has to take the whole run of white space, because the
    next unit must be [-]; when it fails, the second alternative takes the
    run alone. *)
Definition matchSeparator (s : string) : option string :=
  match s with
  | EmptyString => None
  | String c rest =>
      if isWhiteSpace c then
        let after := skipWhiteSpace rest in
        match after with
        | String "-"%char (String c2 rest2) =>
            if isWhiteSpace c2 then Some (skipWhiteSpace rest2) else Some after
        | _ => Some after
        end
      else None
  end.

(** [s.replace(/\s+-\s+|\s+/, 'T')]: the leftmost match only. *)
Fixpoint replaceFirstSeparator (s : string) : string :=
  match matchSeparator s with
  | Some after => String "T"%char after
  | None =>
      match s with
      | EmptyString => EmptyString
      | String c rest => String c (replaceFirstSeparator rest)
      end
  end.

Definition formatDateTime (dt : string) : string :=
  replaceFirstSeparator (replaceAllSlash dt).

(** ** The host's [Date] *)

Record Host : Type := mkHost {
  (** [new Date(text).getTime()], [None] when it is [NaN] *)
  Date_parse : string -> option Z;
  (** [date.toLocaleDateString()] of the date with the given time value *)
  toLocaleDateString : Z -> string;
  (** [date.toLocaleTimeString()] *)
  toLocaleTimeString : Z -> string
}.

(** ** The derived quantities of calculateBilirubinRisk *)

(** [(measurementDate.getTime() - birthDate.getTime()) / (1000 * 60 * 60)] *)
Definition hoursOfLife (birthDate measurementDate : Z) : Q :=
  inject_Z (measurementDate - birthDate) / inject_Z (1000 * 60 * 60).

(** [gestationalWeeks + (gestationalDays / 7)] *)
Definition aogDecimalOf (gestationalWeeks gestationalDays : Z) : Q :=
  inject_Z gestationalWeeks + inject_Z gestationalDays / 7.

(** [!s] for a string. *)
Definition isEmpty (s : string) : bool :=
  match s with
  | EmptyString => true
  | String _ _ => false
  end.

(** The five keys of [maiselsData]. *)
Inductive MaiselsKey : Type := key28 | key29 | key31 | key33 | key34.

(** The band [getMaiselsThresholds] reads for a gestational age. *)
Definition maiselsKeyOf (aog : Q) : MaiselsKey :=
  if aog <? 28 then key28
  else if aog <? 30 then key29
  else if aog <? 32 then key31
  else if aog <? 34 then key33
  else key34.

(** ** The copy of src/unnamed/part_001 *)

Module Part001.

Record MaiselsBand : Type := mkBand { pl : Q; dvet : Q }.

Definition maiselsData (key : MaiselsKey) : MaiselsBand :=
  match key with
  | key28 => {| pl := 6; dvet := 14 |}
  | key29 => {| pl := 8; dvet := 14 |}
  | key31 => {| pl := 10; dvet := 16 |}
  | key33 => {| pl := 12; dvet := 18 |}
  | key34 => {| pl := 14; dvet := 19 |}
  end.

Definition getMaiselsThresholds (aog tcb : Q) : TherapyThresholds :=
  let thresholds := maiselsData (maiselsKeyOf aog) in
  {| th_phototherapy := {|
       status := if tcb >=? pl thresholds then ABOVE else BELOW;
       threshold := TNumber (pl thresholds) |};
     th_exchangeTransfusion := {|
       status := if tcb >=? dvet thresholds then ABOVE else BELOW;
       threshold := TNumber (dvet thresholds) |}
  |}.

Definition calculateBilirubinRisk (host : Host) (input : CalculationInput)
  : completion (option CalculationResult) :=
  let '(mkInput birthDateTime measurementDateTime tcbValue
                gestationalWeeks gestationalDays hasRiskFactors) := input in
  if isEmpty birthDateTime || isEmpty measurementDateTime
     || (tcbValue === 0) || (gestationalWeeks =? 0)%Z
  then Normal None
  else
    match Date_parse host (formatDateTime birthDateTime),
          Date_parse host (formatDateTime measurementDateTime) with
    | Some birthDate, Some measurementDate =>
        if (measurementDate <=? birthDate)%Z then Normal None
        else
          let hol := hoursOfLife birthDate measurementDate in
          let aogDecimal := aogDecimalOf gestationalWeeks gestationalDays in
          bhutaniZone <-
            (if aogDecimal <? 35 then Normal NotApplicable
             else getBhutaniZone hol tcbValue) ;;
          therapyThresholds <-
            (if aogDecimal >=? 35
             then getAapThresholds hol aogDecimal hasRiskFactors tcbValue
             else Normal (getMaiselsThresholds aogDecimal tcbValue)) ;;
          Normal (Some {|
            dob := toLocaleDateString host birthDate;
            tob := toLocaleTimeString host birthDate;
            hol := parseFloat_toFixed hol 1;
            tcb := tcbValue;
            aog := Number_toString gestationalWeeks ++ "w "
                   ++ Number_toString gestationalDays ++ "d";
            bhutaniZone := bhutaniZone;
            phototherapy := th_phototherapy therapyThresholds;
            exchangeTransfusion := th_exchangeTransfusion therapyThresholds
          |})
    | _, _ => Normal None
    end.

End Part001.

(** ** The copy of src/unnamed/part_000 *)

Module Part000.

(** [pl: [min, max]], [dvet: [min, max]]; the bounds are integer
    literals, kept as integers because the template literal prints
    them. *)
Record MaiselsBand : Type := mkBand { pl : Z * Z; dvet : Z * Z }.

Definition maiselsData (key : MaiselsKey) : MaiselsBand :=
  match key with
  | key28 => {| pl := (5, 6)%Z; dvet := (11, 14)%Z |}
  | key29 => {| pl := (6, 8)%Z; dvet := (12, 14)%Z |}
  | key31 => {| pl := (8, 10)%Z; dvet := (13, 16)%Z |}
  | key33 => {| pl := (10, 12)%Z; dvet := (15, 18)%Z |}
  | key34 => {| pl := (12, 14)%Z; dvet := (17, 19)%Z |}
  end.

Definition getStatus (value min max : Q) : ThresholdStatus :=
  if value >? max then ABOVE
  else if value <? min then BELOW
  else WITHIN.

Definition getMaiselsThresholds (aog tcb : Q) : TherapyThresholds :=
  let thresholds := maiselsData (maiselsKeyOf aog) in
  let '(plMin, plMax) := pl thresholds in
  let '(dvetMin, dvetMax) := dvet thresholds in
  {| th_phototherapy := {|
       status := getStatus tcb (inject_Z plMin) (inject_Z plMax);
       threshold :=
         TString (Number_toString plMin ++ "-" ++ Number_toString plMax) |};
     th_exchangeTransfusion := {|
       status := getStatus tcb (inject_Z dvetMin) (inject_Z dvetMax);
       threshold :=
         TString (Number_toString dvetMin ++ "-" ++ Number_toString dvetMax) |}
  |}.

Definition calculateBilirubinRisk (host : Host) (input : CalculationInput)
  : completion (option CalculationResult) :=
  let '(mkInput birthDateTime measurementDateTime tcbValue
                gestationalWeeks gestationalDays hasRiskFactors) := input in
  if isEmpty birthDateTime || isEmpty measurementDateTime
     || (tcbValue === 0) || (gestationalWeeks =? 0)%Z
  then Normal None
  else
    match Date_parse host (formatDateTime birthDateTime),
          Date_parse host (formatDateTime measurementDateTime) with
    | Some birthDate, Some measurementDate =>
        if (measurementDate <=? birthDate)%Z then Normal None
        else
          let hol := hoursOfLife birthDate measurementDate in
          let aogDecimal := aogDecimalOf gestationalWeeks gestationalDays in
          bhutaniZone <-
            (if aogDecimal <? 35 then Normal NotApplicable
             else getBhutaniZone hol tcbValue) ;;
          therapyThresholds <-
            (if aogDecimal >=? 35
             then getAapThresholds hol aogDecimal hasRiskFactors tcbValue
             else Normal (getMaiselsThresholds aogDecimal tcbValue)) ;;
          Normal (Some {|
            dob := toLocaleDateString host birthDate;
            tob := toLocaleTimeString host birthDate;
            hol := parseFloat_toFixed hol 1;
            tcb := tcbValue;
            aog := Number_toString gestationalWeeks ++ "w "
                   ++ Number_toString gestationalDays ++ "d";
            bhutaniZone := bhutaniZone;
            phototherapy := th_phototherapy therapyThresholds;
            exchangeTransfusion := th_exchangeTransfusion therapyThresholds
          |})
    | _, _ => Normal None
    end.

End Part000.

(** ** A reference host

    One host among the conforming ones: its clock is UTC, [Date.parse]
    accepts the date-time form [YYYY-MM-DDTHH:mm] of the ECMAScript
    date-time string format, and the locale printers write [YYYY-MM-DD]
    and [HH:mm:ss].  The general theorems hold for every host; this one
    serves where a statement needs concrete instants. *)

Module ReferenceHost.
Local Open Scope Z_scope.

Definition digitValue (c : ascii) : option Z :=
  let n := Z.of_N (N_of_ascii c) in
  if (48 <=? n) && (n <=? 57) then Some (n - 48) else None.

Fixpoint digitsValue (s : string) (acc : Z) : option Z :=
  match s with
  | EmptyString => Some acc
  | String c rest =>
      match digitValue c with
      | Some d => digitsValue rest (10 * acc + d)
      | None => None
      end
  end.

(** The number written by the [len] digits of [s] from [start] on. *)
Definition field (s : string) (start len : nat) : option Z :=
  let t := substring start len s in
  if Nat.eqb (String.length t) len then digitsValue t 0 else None.

Definition hasCharAt (s : string) (n : nat) (c : ascii) : bool :=
  match String.get n s with
  | Some c' => Ascii.eqb c' c
  | None => false
  end.

Definition isLeapYear (y : Z) : bool :=
  ((y mod 4 =? 0) && negb (y mod 100 =? 0)) || (y mod 400 =? 0).

Definition daysInMonth (y m : Z) : Z :=
  if m =? 2 then (if isLeapYear y then 29 else 28)
  else if (m =? 4) || (m =? 6) || (m =? 9) || (m =? 11) then 30
  else 31.

(** Days from 1970-01-01 to the civil date [y-m-d]. *)
Definition daysFromCivil (y m d : Z) : Z :=
  let y' := if m <=? 2 then y - 1 else y in
  let era := y' / 400 in
  let yoe := y' - era * 400 in
  let doy := (153 * (if 2 <? m then m - 3 else m + 9) + 2) / 5 + d - 1 in
  let doe := yoe * 365 + yoe / 4 - yoe / 100 + doy in
  era * 146097 + doe - 719468.

(** The civil date [(y, m, d)] of a day count. *)
Definition civilFromDays (days : Z) : Z * Z * Z :=
  let z := days + 719468 in
  let era := z / 146097 in
  let doe := z - era * 146097 in
  let yoe := (doe - doe / 1460 + doe / 36524 - doe / 146096) / 365 in
  let doy := doe - (365 * yoe + yoe / 4 - yoe / 100) in
  let mp := (5 * doy + 2) / 153 in
  let d := doy - (153 * mp + 2) / 5 + 1 in
  let m := if mp <? 10 then mp + 3 else mp - 9 in
  ((if m <=? 2 then yoe + era * 400 + 1 else yoe + era * 400), m, d).

Definition msPerDay : Z := 86400000.

Definition parse (s : string) : option Z :=
  if Nat.eqb (String.length s) 16
     && hasCharAt s 4 "-" && hasCharAt s 7 "-"
     && hasCharAt s 10 "T" && hasCharAt s 13 ":"
  then
    match field s 0 4, field s 5 2, field s 8 2, field s 11 2, field s 14 2 with
    | Some y, Some m, Some d, Some h, Some mi =>
        if (1 <=? m) && (m <=? 12) && (1 <=? d) && (d <=? daysInMonth y m)
           && (h <=? 23) && (mi <=? 59)
        then Some (daysFromCivil y m d * msPerDay + h * 3600000 + mi * 60000)
        else None
    | _, _, _, _, _ => None
    end
  else None.

(** [n] in decimal, padded with zeros to [width] digits. *)
Definition padded (width : nat) (n : Z) : string :=
  let t := Number_toString n in
  (string_of_list_ascii (repeat "0"%char (width - String.length t)) ++ t)%string.

Definition dateString (t : Z) : string :=
  let '(y, m, d) := civilFromDays (t / msPerDay) in
  (padded 4 y ++ "-" ++ padded 2 m ++ "-" ++ padded 2 d)%string.

Definition timeString (t : Z) : string :=
  let ms := t mod msPerDay in
  (padded 2 (ms / 3600000) ++ ":" ++ padded 2 (ms / 60000 mod 60)
     ++ ":" ++ padded 2 (ms / 1000 mod 60))%string.

Definition host : Host :=
  {| Date_parse := parse;
     toLocaleDateString := dateString;
     toLocaleTimeString := timeString |}.

End ReferenceHost.

(** ** Notions the statements use *)



(** [y0 <= y1 <= ...]: the y values do not decrease along the table. *)
Fixpoint nonDecreasingY (points : DataPoints) : bool :=
  match points with
  | [] => true
  | p :: rest =>
      match rest with
      | [] => true
      | q :: _ => (snd p <=? snd q) && nonDecreasingY rest
      end
  end.


(** The straight line through [p0] and [p1], read at [x]. *)
Definition segment (p0 p1 : Point) (x : Q) : Q :=
  snd p0 + (x - fst p0) * (snd p1 - snd p0) / (fst p1 - fst p0).

(** The interpolation inside the range, by one pass over the rows: the
    first row at or right of [x] closes the segment its predecessor
    opens. *)
Fixpoint walk (prev : Point) (rest : DataPoints) (x : Q) : Q :=
  match rest with
  | [] => snd prev
  | q :: rest' => if fst q >=? x then segment prev q x else walk q rest' x
  end.

(** The input with another birth or measurement text. *)
Definition withBirth (input : CalculationInput) (text : string)
  : CalculationInput :=
  {| birthDateTime := text;
     measurementDateTime := measurementDateTime input;
     tcbValue := tcbValue input;
     gestationalWeeks := gestationalWeeks input;
     gestationalDays := gestationalDays input;
     hasRiskFactors := hasRiskFactors input |}.

Definition withMeasurement (input : CalculationInput) (text : string)
  : CalculationInput :=
  {| birthDateTime := birthDateTime input;
     measurementDateTime := text;
     tcbValue := tcbValue input;
     gestationalWeeks := gestationalWeeks input;
     gestationalDays := gestationalDays input;
     hasRiskFactors := hasRiskFactors input |}.

(** [y0 <= y1 <= ...] along the rows [prev :: rest]. *)
Fixpoint ascendingY (prev : Point) (rest : DataPoints) : Prop :=
  match rest with
  | [] => True
  | q :: rest' => snd prev <= snd q /\ ascendingY q rest'
  end.

(** The type of [calculateBilirubinRisk], and the two copies of it. *)
Definition Engine : Type :=
  Host -> CalculationInput -> completion (option CalculationResult).

Definition engines : list Engine :=
  [Part001.calculateBilirubinRisk; Part000.calculateBilirubinRisk].

(** The body the two copies share, over the [getMaiselsThresholds] of the
    copy; each copy is an instance of it ([Part001_shape],
    [Part000_shape]). *)
Definition calculateWith (getMaiselsThresholds : Q -> Q -> TherapyThresholds)
  : Engine :=
  fun host input =>
    if isEmpty (birthDateTime input) || isEmpty (measurementDateTime input)
       || (tcbValue input === 0) || (gestationalWeeks input =? 0)%Z
    then Normal None
    else
      match Date_parse host (formatDateTime (birthDateTime input)),
            Date_parse host (formatDateTime (measurementDateTime input)) with
      | Some birthDate, Some measurementDate =>
          if (measurementDate <=? birthDate)%Z then Normal None
          else
            let hol := hoursOfLife birthDate measurementDate in
            let aogDecimal :=
              aogDecimalOf (gestationalWeeks input) (gestationalDays input) in
            bhutaniZone <-
              (if aogDecimal <? 35 then Normal NotApplicable
               else getBhutaniZone hol (tcbValue input)) ;;
            therapyThresholds <-
              (if aogDecimal >=? 35
               then getAapThresholds hol aogDecimal (hasRiskFactors input)
                                     (tcbValue input)
               else Normal (getMaiselsThresholds aogDecimal (tcbValue input))) ;;
            Normal (Some {|
              dob := toLocaleDateString host birthDate;
              tob := toLocaleTimeString host birthDate;
              hol := parseFloat_toFixed hol 1;
              tcb := tcbValue input;
              aog := Number_toString (gestationalWeeks input) ++ "w "
                     ++ Number_toString (gestationalDays input) ++ "d";
              bhutaniZone := bhutaniZone;
              phototherapy := th_phototherapy therapyThresholds;
              exchangeTransfusion := th_exchangeTransfusion therapyThresholds
            |})
      | _, _ => Normal None
      end.

(** The input passes every check of [calculateBilirubinRisk] on [host],
    its two texts being read as the instants [birthDate] and
    [measurementDate]. *)
Definition acceptedAt (host : Host) (input : CalculationInput)
           (birthDate measurementDate : Z) : Prop :=
  birthDateTime input <> EmptyString /\
  measurementDateTime input <> EmptyString /\
  ~ tcbValue input == 0 /\
  gestationalWeeks input <> 0%Z /\
  Date_parse host (formatDateTime (birthDateTime input)) = Some birthDate /\
  Date_parse host (formatDateTime (measurementDateTime input))
    = Some measurementDate /\
  (birthDate < measurementDate)%Z.

(** The call returns normally, and returns the number [v]. *)
Definition returns (c : completion Q) (v : Q) : Prop :=
  match c with
  | Normal w => w == v
  | Thrown => False
  end.

(** The three spellings of one instant that the specification names. *)
Definition timestampShapes : list string :=
  ["2024/01/01 - 10:00"; "2024-01-01 10:00"; "2024-01-01T10:00"]%string.

(** The specification's AAP example: 24 hours of life, TCB 10, 38 weeks
    0 days, no risk factors. *)
Definition aapExample : CalculationInput :=
  mkInput "2024-01-01T10:00" "2024-01-02T10:00" 10 38 0 false.

(** ** Further notions *)

(** What [linearInterpolate] returns on the table [first :: rest]. *)
Definition valueAt (first : Point) (rest : DataPoints) (x : Q) : Q :=
  if x <=? fst first then snd first
  else if x >=? fst (last (first :: rest) first)
       then snd (last (first :: rest) first)
       else walk first rest x.

(** The zones from the mildest to the gravest. *)
Definition zoneRank (zone : BhutaniRiskZone) : nat :=
  match zone with
  | Low => 0
  | LowIntermediate => 1
  | HighIntermediate => 2
  | High => 3
  | NotApplicable => 0
  end.

(** The Maisels bands in the order of gestational age. *)
Definition bandRank (key : MaiselsKey) : nat :=
  match key with
  | key28 => 0 | key29 => 1 | key31 => 2 | key33 => 3 | key34 => 4
  end.

(** No code unit of [s] is white space / every code unit of [s] is. *)
Fixpoint noWhiteSpace (s : string) : bool :=
  match s with
  | EmptyString => true
  | String c rest => negb (isWhiteSpace c) && noWhiteSpace rest
  end.

Fixpoint allWhiteSpace (s : string) : bool :=
  match s with
  | EmptyString => true
  | String c rest => isWhiteSpace c && allWhiteSpace rest
  end.

(** * src/App.tsx

    The handlers of the form component [App], over its React state.  What
    is kept of the state is what the handlers below read or write: the
    form's texts, the result shown and the error shown.  The updates a
    handler queues ([setInput], [setResult], [setError]) are applied
    together when it returns, so a handler is a function from the state
    before to the state after.  The markup, the colours and the clipboard
    call itself are not modelled. *)

(** [parseFloat(text)] and [parseInt(text, 10)]; [None] stands for [NaN].
    As with [Host], they are left to the platform.  (An infinite value of
    [parseFloat] has no counterpart among the numbers modelled here.) *)
Record Conversions : Type := mkConversions {
  parseFloat : string -> option Q;
  parseInt : string -> option Z
}.

(** [s.padStart(targetLength, fill)] for a one-unit [fill]. *)
Definition padStart (s : string) (targetLength : nat) (fill : ascii) : string :=
  (string_of_list_ascii (repeat fill (targetLength - String.length s)) ++ s)%string.

(** [s.trim()] *)
Fixpoint trimEnd (s : string) : string :=
  match s with
  | EmptyString => EmptyString
  | String c rest =>
      let rest' := trimEnd rest in
      if isWhiteSpace c && isEmpty rest' then EmptyString else String c rest'
  end.

Definition trim (s : string) : string := trimEnd (skipWhiteSpace s).

(** [s.split(/\s+-\s+|\s+/)], as far as its first two parts: the text
    before the leftmost match, and what follows that match ([None] when
    there is no match). *)
Fixpoint splitFirst (s : string) : string * option string :=
  match matchSeparator s with
  | Some after => (EmptyString, Some after)
  | None =>
      match s with
      | EmptyString => (EmptyString, None)
      | String c rest =>
          let '(part, after) := splitFirst rest in (String c part, after)
      end
  end.

(** [parts[0]] and [parts[1]] ([None] when undefined). *)
Definition part0 (s : string) : string := fst (splitFirst s).

Definition part1 (s : string) : option string :=
  match snd (splitFirst s) with
  | Some after => Some (fst (splitFirst after))
  | None => None
  end.

(** [Math.round(x)]: the nearest integer, a half going up. *)
Definition Math_round (x : Q) : Z := Qfloor (x + (1 # 2)).

(** [x.toFixed(1)]: the sign, the digits of the nearest count of tenths
    (a half going away from zero) before its last digit, a point, and that
    last digit.  From 10^21 on the platform switches to the exponent
    notation, which is not modelled: [None]. *)
Definition toFixed_1 (x : Q) : option string :=
  if Qabs x >=? inject_Z (10 ^ 21) then None
  else
    let n := Qfloor (Qabs x * 10 + (1 # 2)) in
    let sign := if x <? 0 then "-"%string else EmptyString in
    Some (sign ++ Number_toString (n / 10) ++ "."
          ++ Number_toString (n mod 10))%string.

(** [s.endsWith(suffix)] *)
Definition endsWith (s suffix : string) : bool :=
  (String.length suffix <=? String.length s)%nat
  && String.eqb (substring (String.length s - String.length suffix)
                           (String.length suffix) s) suffix.

(** [s.slice(0, -fromEnd)] *)
Definition slice_0 (s : string) (fromEnd : nat) : string :=
  substring 0 (String.length s - fromEnd) s.

Module App.

Record FormInput : Type := mkForm {
  form_birthDateTime : string;
  form_measurementDateTime : string;
  form_tcbValue : string;
  form_gestationalWeeks : string;
  form_gestationalDays : string;
  form_hasRiskFactors : bool
}.

Record State : Type := mkState {
  st_input : FormInput;
  st_result : option CalculationResult;
  st_error : string
}.

Definition setError (message : string) (st : State) : State :=
  {| st_input := st_input st; st_result := st_result st; st_error := message |}.

Definition weeksMessage : string :=
  "Gestational weeks must be between 28 and 42.".
Definition daysMessage : string :=
  "Gestational days must be between 0 and 6.".
Definition tcbMessage : string :=
  "TcB value must be greater than 0.".
Definition calculationMessage : string :=
  "Could not calculate risk. Please check your inputs. Birth date/time must be before measurement date/time.".

(** [input.gestationalDays === '' ? 0 : parseInt(input.gestationalDays, 10)] *)
Definition gestationalDaysOf (conv : Conversions) (input : FormInput)
  : option Z :=
  if isEmpty (form_gestationalDays input) then Some 0%Z
  else parseInt conv (form_gestationalDays input).

Definition handleSubmit (conv : Conversions)
           (calculateBilirubinRisk : Engine) (host : Host) (st : State)
  : completion State :=
  let input := st_input st in
  let st := setError EmptyString st in
  let tcbValue := parseFloat conv (form_tcbValue input) in
  let gestationalWeeks := parseInt conv (form_gestationalWeeks input) in
  let gestationalDays := gestationalDaysOf conv input in
  match gestationalWeeks with
  | None => Normal (setError weeksMessage st)
  | Some gestationalWeeks =>
  if ((gestationalWeeks <? 28) || (gestationalWeeks >? 42))%Z
  then Normal (setError weeksMessage st)
  else
  match gestationalDays with
  | None => Normal (setError daysMessage st)
  | Some gestationalDays =>
  if ((gestationalDays <? 0) || (gestationalDays >? 6))%Z
  then Normal (setError daysMessage st)
  else
  match tcbValue with
  | None => Normal (setError tcbMessage st)
  | Some tcbValue =>
  if tcbValue <=? 0 then Normal (setError tcbMessage st)
  else
    let calculationInput :=
      {| birthDateTime := form_birthDateTime input;
         measurementDateTime := form_measurementDateTime input;
         hasRiskFactors := form_hasRiskFactors input;
         tcbValue := tcbValue;
         gestationalWeeks := gestationalWeeks;
         gestationalDays := gestationalDays |} in
    calculationResult <- calculateBilirubinRisk host calculationInput ;;
    match calculationResult with
    | Some r =>
        Normal {| st_input := st_input st; st_result := Some r;
                  st_error := st_error st |}
    | None => Normal (setError calculationMessage st)
    end
  end end end.

(** The fields of [new Date()] that [handleSetCurrentTime] reads. *)
Record LocalTime : Type := mkLocalTime {
  getFullYear : Z;
  getMonth : Z;
  getDate : Z;
  getHours : Z;
  getMinutes : Z
}.

Definition formattedDateTime (now : LocalTime) : string :=
  let year := getFullYear now in
  let month := padStart (Number_toString (getMonth now + 1)) 2 "0" in
  let day := padStart (Number_toString (getDate now)) 2 "0" in
  let hours := padStart (Number_toString (getHours now)) 2 "0" in
  let minutes := padStart (Number_toString (getMinutes now)) 2 "0" in
  (Number_toString year ++ "/" ++ month ++ "/" ++ day ++ " - "
     ++ hours ++ ":" ++ minutes)%string.

Definition handleSetCurrentTime (now : LocalTime) (st : State) : State :=
  let prev := st_input st in
  {| st_input :=
       {| form_birthDateTime := form_birthDateTime prev;
          form_measurementDateTime := formattedDateTime now;
          form_tcbValue := form_tcbValue prev;
          form_gestationalWeeks := form_gestationalWeeks prev;
          form_gestationalDays := form_gestationalDays prev;
          form_hasRiskFactors := form_hasRiskFactors prev |};
     st_result := st_result st;
     st_error := st_error st |}.

(** ** The text copied to the clipboard: the parts computed from the form *)

Definition orNA (s : string) : string := if isEmpty s then "N/A"%string else s.

(** [(parts[0] || '').trim() || 'N/A'] *)
Definition dob (input : FormInput) : string :=
  orNA (trim (part0 (form_birthDateTime input))).

(** [(parts[1] || '').trim() || 'N/A'] *)
Definition tob (input : FormInput) : string :=
  orNA (trim (match part1 (form_birthDateTime input) with
              | Some part => part
              | None => EmptyString
              end)).

(** [weeks + ((Number.isFinite(days) ? days : 0) / 7)], [None] for null *)
Definition totalWeeks (conv : Conversions) (input : FormInput) : option Q :=
  let weeks := parseInt conv (form_gestationalWeeks input) in
  let days := gestationalDaysOf conv input in
  match weeks with
  | Some weeks =>
      Some (inject_Z weeks
            + inject_Z (match days with Some days => days | None => 0%Z end) / 7)
  | None => None
  end.

Definition riskCategory (conv : Conversions) (input : FormInput) : string :=
  match totalWeeks conv input with
  | None => "N/A"
  | Some totalWeeks =>
      if totalWeeks >=? 38 then
        if form_hasRiskFactors input then "Medium Risk Neonate"
        else "Low Risk Neonate"
      else if totalWeeks >=? 35 then
        if form_hasRiskFactors input then "High Risk Neonate"
        else "Medium Risk Neonate"
      else "High Risk Neonate"
  end.

(** [formatThreshold]: a number is always finite here, so the branch that
    prints the threshold as it is is taken for a text that [parseFloat]
    does not read. *)
Definition formatNumber (numericValue : Q) : option string :=
  let rounded := inject_Z (Math_round (numericValue * 10)) / 10 in
  match toFixed_1 rounded with
  | Some withOneDecimal =>
      Some (if endsWith withOneDecimal ".0" then slice_0 withOneDecimal 2
            else withOneDecimal)
  | None => None
  end.

Definition formatThreshold (conv : Conversions) (threshold : ThresholdValue)
  : option string :=
  match threshold with
  | TNumber numericValue => formatNumber numericValue
  | TString text =>
      match parseFloat conv text with
      | Some numericValue => formatNumber numericValue
      | None => Some text
      end
  end.

End App.

(** The form's numbers pass the three checks of [handleSubmit]. *)
Definition validated (conv : Conversions) (input : App.FormInput)
           (weeks days : Z) (tcb : Q) : Prop :=
  parseInt conv (App.form_gestationalWeeks input) = Some weeks /\
  (28 <= weeks <= 42)%Z /\
  App.gestationalDaysOf conv input = Some days /\
  (0 <= days <= 6)%Z /\
  parseFloat conv (App.form_tcbValue input) = Some tcb /\
  0 < tcb.

(** The input [handleSubmit] hands to the engine. *)
Definition calculationInputOf (input : App.FormInput)
           (weeks days : Z) (tcb : Q) : CalculationInput :=
  {| birthDateTime := App.form_birthDateTime input;
     measurementDateTime := App.form_measurementDateTime input;
     hasRiskFactors := App.form_hasRiskFactors input;
     tcbValue := tcb;
     gestationalWeeks := weeks;
     gestationalDays := days |}.

(** A stand-in for the platform's conversions, for the texts that start
    with decimal digits: the number those digits write, whatever follows
    them.  The witnesses run on it. *)
Module ReferenceConversions.

Fixpoint leadingDigits (s : string) : string :=
  match s with
  | EmptyString => EmptyString
  | String c rest =>
      match ReferenceHost.digitValue c with
      | Some _ => String c (leadingDigits rest)
      | None => EmptyString
      end
  end.

Definition parseInt (s : string) : option Z :=
  let digits := leadingDigits s in
  if isEmpty digits then None else ReferenceHost.digitsValue digits 0.

Definition parseFloat (s : string) : option Q :=
  match parseInt s with
  | Some n => Some (inject_Z n)
  | None => None
  end.

Definition conv : Conversions := mkConversions parseFloat parseInt.

End ReferenceConversions.

(** No code unit of [s] is white space or a slash. *)
Fixpoint plainText (s : string) : bool :=
  match s with
  | EmptyString => true
  | String c rest =>
      negb (isWhiteSpace c) && negb (Ascii.eqb c "/") && plainText rest
  end.

(** A filled-in form, nothing shown yet. *)
Definition formExample : App.State :=
  App.mkState
    (App.mkForm "2024/01/01 - 10:00" "2024/01/02 - 10:00" "10" "38"
                EmptyString false)
    None EmptyString.

(** * The repository's tests, replayed

    A few cases of the test file (src/unnamed/part_000, lines 44-1531),
    evaluated on the embedding. *)

Example test_interpolate_between_points :
  returns (linearInterpolate [(0, 0); (10, 10); (20, 20)] 5) 5 /\
  returns (linearInterpolate [(0, 0); (10, 10); (20, 20)] 18) 18 /\
  returns (linearInterpolate [(0, 0); (10, 20); (20, 10)] 5) 10 /\
  returns (linearInterpolate [(0, 0); (10, 20); (20, 10)] 15) 15.
Proof. repeat split; vm_compute; reflexivity. Qed.

Example test_interpolate_duplicate_x :
  returns (linearInterpolate [(0, 0); (10, 10); (10, 20); (20, 20)] 10) 10.
Proof. vm_compute. reflexivity. Qed.

Example test_interpolate_bhutani_low :
  returns (linearInterpolate bhutaniData.low 12) 3.5 /\
  returns (linearInterpolate bhutaniData.low 24) 5.5 /\
  returns (linearInterpolate bhutaniData.low 18) 4.5.
Proof. repeat split; vm_compute; reflexivity. Qed.

Example test_interpolate_clamps :
  linearInterpolate [(0, 0); (10, 10); (20, 20)] (-5) = Normal 0 /\
  linearInterpolate [(0, 0); (10, 10); (20, 20)] 100 = Normal 20.
Proof. split; reflexivity. Qed.

Example test_interpolate_single_point :
  linearInterpolate [(5, 10)] 0 = Normal 10 /\
  linearInterpolate [(5, 10)] 5 = Normal 10 /\
  linearInterpolate [(5, 10)] 10 = Normal 10.
Proof. repeat split; reflexivity. Qed.

Example test_zone_not_applicable_after_144h :
  getBhutaniZone 145 10 = Normal NotApplicable /\
  getBhutaniZone 200 20 = Normal NotApplicable.
Proof. split; reflexivity. Qed.

Example test_zone_low :
  getBhutaniZone 12 3 = Normal Low /\
  getBhutaniZone 24 5 = Normal Low /\
  getBhutaniZone 36 7 = Normal Low.
Proof. repeat split; reflexivity. Qed.

Example test_aap_lower_risk_at_24h :
  getAapThresholds 24 38 false 10 =
    Normal {|
      th_phototherapy := {| status := BELOW; threshold := TNumber 12 |};
      th_exchangeTransfusion := {| status := BELOW; threshold := TNumber 19 |} |}.
Proof. reflexivity. Qed.

Example test_aap_above_at_threshold :
  option_map status
    (match getAapThresholds 24 38 false 12 with
     | Normal t => Some (th_phototherapy t)
     | Thrown => None
     end) = Some ABOVE.
Proof. reflexivity. Qed.

Example test_aap_medium_risk_with_risk_factors :
  getAapThresholds 24 38 true 10 =
    Normal {|
      th_phototherapy := {| status := ABOVE; threshold := TNumber 10 |};
      th_exchangeTransfusion := {| status := BELOW; threshold := TNumber 17 |} |}.
Proof. reflexivity. Qed.

Example test_maisels_within :
  th_phototherapy (Part000.getMaiselsThresholds 27 5.5)
    = {| status := WITHIN; threshold := TString "5-6" |} /\
  th_phototherapy (Part000.getMaiselsThresholds 27 4)
    = {| status := BELOW; threshold := TString "5-6" |} /\
  th_phototherapy (Part000.getMaiselsThresholds 27 7)
    = {| status := ABOVE; threshold := TString "5-6" |}.
Proof. repeat split; reflexivity. Qed.

Example test_maisels_band_of_35 :
  threshold (th_phototherapy (Part000.getMaiselsThresholds 35 13))
    = TString "12-14" /\
  threshold (th_exchangeTransfusion (Part000.getMaiselsThresholds 35 13))
    = TString "17-19".
Proof. split; reflexivity. Qed.

Example test_null_on_empty_birth :
  Part000.calculateBilirubinRisk ReferenceHost.host
    (mkInput EmptyString "2024-01-02T10:00" 10 38 0 false) = Normal None.
Proof. reflexivity. Qed.

Example test_null_on_unparseable_birth :
  Part000.calculateBilirubinRisk ReferenceHost.host
    (mkInput "invalid-date" "2024-01-02T10:00" 10 38 0 false) = Normal None.
Proof. reflexivity. Qed.

Example test_slash_format_gives_24_hours :
  option_map hol
    (match Part000.calculateBilirubinRisk ReferenceHost.host
             (mkInput "2024/01/01 - 10:00" "2024/01/02 - 10:00" 10 38 0 false)
     with
     | Normal r => r
     | Thrown => None
     end) = Some 24.
Proof. vm_compute. reflexivity. Qed.

(** * Properties *)

(** ** Comparisons as propositions *)

Lemma leb_true_iff (a b : Q) : (a <=? b) = true <-> a <= b.
Proof. apply Qle_bool_iff. Qed.

Lemma leb_false_iff (a b : Q) : (a <=? b) = false <-> b < a.
Proof.
  unfold leb. rewrite <- not_true_iff_false, Qle_bool_iff.
  split; [apply Qnot_le_lt | apply Qlt_not_le].
Qed.

Lemma geb_true_iff (a b : Q) : (a >=? b) = true <-> b <= a.
Proof. apply leb_true_iff. Qed.

Lemma geb_false_iff (a b : Q) : (a >=? b) = false <-> a < b.
Proof. apply leb_false_iff. Qed.

Lemma gtb_true_iff (a b : Q) : (a >? b) = true <-> b < a.
Proof. unfold gtb. rewrite negb_true_iff. apply leb_false_iff. Qed.

Lemma gtb_false_iff (a b : Q) : (a >? b) = false <-> a <= b.
Proof. unfold gtb. rewrite negb_false_iff. apply leb_true_iff. Qed.

Lemma ltb_true_iff (a b : Q) : (a <? b) = true <-> a < b.
Proof. unfold ltb. rewrite negb_true_iff. apply leb_false_iff. Qed.

Lemma ltb_false_iff (a b : Q) : (a <? b) = false <-> b <= a.
Proof. unfold ltb. rewrite negb_false_iff. apply leb_true_iff. Qed.

Lemma eqb_true_iff (a b : Q) : (a === b) = true <-> a == b.
Proof. apply Qeq_bool_iff. Qed.

Lemma eqb_false_iff (a b : Q) : (a === b) = false <-> ~ a == b.
Proof. unfold eqb. rewrite <- not_true_iff_false, Qeq_bool_iff. tauto. Qed.

(** Turns every boolean comparison of the context into its proposition. *)
Ltac num_prop :=
  repeat match goal with
  | H : (_ <=? _) = true |- _ => apply leb_true_iff in H
  | H : (_ <=? _) = false |- _ => apply leb_false_iff in H
  | H : (_ >=? _) = true |- _ => apply geb_true_iff in H
  | H : (_ >=? _) = false |- _ => apply geb_false_iff in H
  | H : (_ >? _) = true |- _ => apply gtb_true_iff in H
  | H : (_ >? _) = false |- _ => apply gtb_false_iff in H
  | H : (_ <? _) = true |- _ => apply ltb_true_iff in H
  | H : (_ <? _) = false |- _ => apply ltb_false_iff in H
  | H : (_ === _) = true |- _ => apply eqb_true_iff in H
  | H : (_ === _) = false |- _ => apply eqb_false_iff in H
  end.

(** ** The bracket of a query inside the table's range *)

Lemma findIndex_Some {A : Type} (f : A -> bool) (l : list A) (i : nat) :
  findIndex f l = Some i ->
  exists l1 a l2,
    l = l1 ++ a :: l2 /\ List.length l1 = i /\ f a = true /\
    Forall (fun b => f b = false) l1.
Proof.
  revert i. induction l as [|a l IH]; intros i H; simpl in H.
  - discriminate.
  - destruct (f a) eqn:Fa.
    + injection H as <-. exists [], a, l. repeat split; auto.
    + destruct (findIndex f l) as [j|]; [|discriminate].
      injection H as <-.
      destruct (IH j eq_refl) as (l1 & b & l2 & -> & <- & Fb & Hall).
      exists (a :: l1), b, l2. repeat split; auto.
Qed.

Lemma findIndex_None {A : Type} (f : A -> bool) (l : list A) :
  findIndex f l = None -> Forall (fun b => f b = false) l.
Proof.
  induction l as [|a l IH]; simpl; intros H; [constructor|].
  destruct (f a) eqn:Fa; [discriminate|].
  destruct (findIndex f l); [discriminate|]. constructor; auto.
Qed.

Lemma last_In (first : Point) (rest : DataPoints) :
  In (last (first :: rest) first) (first :: rest).
Proof.
  destruct (exists_last (l := first :: rest)) as (l' & a & E); [discriminate|].
  rewrite E, last_last. apply in_or_app. right. left. reflexivity.
Qed.

Lemma bracket_middle (first : Point) (rest : DataPoints) (x : Q) :
  fst first < x -> x < fst (last (first :: rest) first) ->
  exists before left right after,
    first :: rest = before ++ left :: right :: after /\
    Forall (fun p => fst p < x) (before ++ [left]) /\
    x <= fst right /\
    bracket first (first :: rest) x = (left, right).
Proof.
  intros Hlo Hhi. unfold bracket, rightIndex.
  destruct (findIndex (fun p => fst p >=? x) (first :: rest)) as [i|] eqn:Fi.
  - apply findIndex_Some in Fi.
    destruct Fi as (l1 & right & after & E & Hlen & Hr & Hall).
    destruct (exists_last (l := l1)) as (before & left & ->).
    { intros ->. simpl in E. injection E as <- _. num_prop.
      apply (Qlt_irrefl x). apply Qle_lt_trans with (fst first); assumption. }
    exists before, left, right, after.
    rewrite <- app_assoc in E. simpl in E.
    split; [exact E|]. split.
    { eapply Forall_impl; [|exact Hall]. simpl. intros p Hp. num_prop. exact Hp. }
    split; [num_prop; exact Hr|].
    assert (Hi : i = S (List.length before))
      by (subst i; rewrite length_app; cbn [List.length]; lia).
    rewrite Hi. cbv beta iota. f_equal.
    + rewrite E. apply nth_middle.
    + rewrite <- Hi, <- Hlen.
      replace (first :: rest) with ((before ++ [left]) ++ right :: after)
        by (rewrite <- app_assoc; simpl; symmetry; exact E).
      apply nth_middle.
  - apply findIndex_None in Fi. rewrite Forall_forall in Fi.
    specialize (Fi _ (last_In first rest)). simpl in Fi. num_prop.
    exfalso. apply (Qlt_irrefl x). eapply Qlt_trans; eassumption.
Qed.

Lemma linearInterpolate_middle (first : Point) (rest : DataPoints) (x : Q) :
  fst first < x -> x < fst (last (first :: rest) first) ->
  exists before left right after,
    first :: rest = before ++ left :: right :: after /\
    Forall (fun p => fst p < x) (before ++ [left]) /\
    x <= fst right /\
    bracket first (first :: rest) x = (left, right) /\
    linearInterpolate (first :: rest) x =
      Normal (snd left + (x - fst left) * (snd right - snd left)
                         / (fst right - fst left)).
Proof.
  intros Hlo Hhi.
  destruct (bracket_middle first rest x Hlo Hhi)
    as (before & left & right & after & E & Hall & Hr & Hb).
  exists before, left, right, after. repeat (split; [assumption|]).
  assert (Hl : fst left < x).
  { rewrite Forall_forall in Hall. apply Hall, in_or_app. right. left. reflexivity. }
  unfold linearInterpolate.
  destruct (x <=? fst first) eqn:C1.
  { num_prop. exfalso. apply (Qlt_irrefl x). eapply Qle_lt_trans; eassumption. }
  destruct (x >=? fst (last (first :: rest) first)) eqn:C2.
  { num_prop. exfalso. apply (Qlt_irrefl x). eapply Qlt_le_trans; eassumption. }
  rewrite Hb. destruct left as [x0 y0], right as [x1 y1]. simpl in *.
  destruct (x1 === x0) eqn:C3; [|reflexivity].
  num_prop. exfalso. rewrite C3 in Hr.
  apply (Qlt_irrefl x). eapply Qle_lt_trans; eassumption.
Qed.

(** ** One segment *)

Lemma segment_lower (p0 p1 : Point) (x : Q) :
  fst p0 < x -> x <= fst p1 -> snd p0 <= snd p1 -> snd p0 <= segment p0 p1 x.
Proof.
  destruct p0 as [x0 y0], p1 as [x1 y1]. unfold segment. simpl. intros.
  assert (0 < x1 - x0) by lra.
  assert (0 <= (x - x0) * (y1 - y0) / (x1 - x0)).
  { apply Qle_shift_div_l; [assumption|]. nra. }
  lra.
Qed.

Lemma segment_upper (p0 p1 : Point) (x : Q) :
  fst p0 < x -> x <= fst p1 -> snd p0 <= snd p1 -> segment p0 p1 x <= snd p1.
Proof.
  destruct p0 as [x0 y0], p1 as [x1 y1]. unfold segment. simpl. intros.
  assert (0 < x1 - x0) by lra.
  assert ((x - x0) * (y1 - y0) / (x1 - x0) <= y1 - y0).
  { apply Qle_shift_div_r; [assumption|]. nra. }
  lra.
Qed.

Lemma segment_mono (p0 p1 : Point) (xa xb : Q) :
  fst p0 < fst p1 -> xa <= xb -> snd p0 <= snd p1 ->
  segment p0 p1 xa <= segment p0 p1 xb.
Proof.
  destruct p0 as [x0 y0], p1 as [x1 y1]. unfold segment. simpl. intros.
  assert (Hd : 0 < x1 - x0) by lra.
  assert ((xa - x0) * (y1 - y0) / (x1 - x0) <= (xb - x0) * (y1 - y0) / (x1 - x0)).
  { unfold Qdiv. apply Qmult_le_compat_r.
    - nra.
    - apply Qlt_le_weak, Qinv_lt_0_compat. exact Hd. }
  lra.
Qed.


(** ** The walk and linearInterpolate agree inside the range *)

Lemma last_cons_default (a d : Point) (l : DataPoints) :
  last (a :: l) d = last l a.
Proof.
  revert a d. induction l as [|b l IH]; intros a d; [reflexivity|].
  change (last (a :: b :: l) d) with (last (b :: l) d).
  rewrite (IH b d). symmetry. apply (IH b a).
Qed.

Lemma walk_skip (x : Q) (mid : DataPoints) (prev right : Point)
      (after : DataPoints) :
  Forall (fun p => fst p < x) mid -> x <= fst right ->
  walk prev (mid ++ right :: after) x = segment (last mid prev) right x.
Proof.
  revert prev. induction mid as [|a mid IH]; intros prev Hall Hr; simpl.
  - apply geb_true_iff in Hr. rewrite Hr. reflexivity.
  - inversion Hall as [|? ? Ha Hmid]; subst.
    apply geb_false_iff in Ha. rewrite Ha.
    rewrite IH by assumption. f_equal.
    symmetry. apply last_cons_default.
Qed.

Lemma linearInterpolate_walk (first : Point) (rest : DataPoints) (x : Q) :
  fst first < x -> x < fst (last (first :: rest) first) ->
  linearInterpolate (first :: rest) x = Normal (walk first rest x).
Proof.
  intros Hlo Hhi.
  destruct (linearInterpolate_middle first rest x Hlo Hhi)
    as (before & left & right & after & E & Hall & Hr & _ & ->).
  f_equal. fold (segment left right x).
  destruct before as [|b before].
  - simpl in E. injection E as <- ->.
    symmetry. apply (walk_skip x [] first right after); [constructor|exact Hr].
  - simpl in E. injection E as <- ->.
    inversion Hall as [|? ? _ Hmid]; subst.
    replace (before ++ left :: right :: after)
      with ((before ++ [left]) ++ right :: after)
      by (rewrite <- app_assoc; reflexivity).
    rewrite walk_skip by assumption.
    rewrite last_last. reflexivity.
Qed.

(** ** Sorted tables *)





Lemma nonDecreasingY_ascending (prev : Point) (rest : DataPoints) :
  nonDecreasingY (prev :: rest) = true -> ascendingY prev rest.
Proof.
  revert prev. induction rest as [|q rest IH]; intros prev H; [exact I|].
  cbn [nonDecreasingY] in H. apply andb_true_iff in H. destruct H as [Hq Hrest].
  split; [apply leb_true_iff; exact Hq|]. apply IH. exact Hrest.
Qed.

Lemma ascendingY_last (prev : Point) (rest : DataPoints) :
  ascendingY prev rest -> snd prev <= snd (last rest prev).
Proof.
  revert prev. induction rest as [|q rest IH]; intros prev H.
  - apply Qle_refl.
  - destruct H as [Hq Hrest]. rewrite last_cons_default.
    apply Qle_trans with (snd q); [exact Hq|]. exact (IH q Hrest).
Qed.

(** ** Bounds and monotonicity of the walk *)

Lemma walk_lower (prev : Point) (rest : DataPoints) (x : Q) :
  ascendingY prev rest -> fst prev < x -> snd prev <= walk prev rest x.
Proof.
  revert prev. induction rest as [|q rest IH]; intros prev Hy Hx; simpl.
  - apply Qle_refl.
  - destruct Hy as [Hq Hrest]. destruct (fst q >=? x) eqn:C; num_prop.
    + apply segment_lower; assumption.
    + apply Qle_trans with (snd q); [exact Hq|]. apply IH; assumption.
Qed.

Lemma walk_upper (prev : Point) (rest : DataPoints) (x : Q) :
  ascendingY prev rest -> fst prev < x ->
  walk prev rest x <= snd (last rest prev).
Proof.
  revert prev. induction rest as [|q rest IH]; intros prev Hy Hx.
  - apply Qle_refl.
  - destruct Hy as [Hq Hrest]. rewrite last_cons_default. cbn [walk].
    destruct (fst q >=? x) eqn:C; num_prop.
    + apply Qle_trans with (snd q); [apply segment_upper; assumption|].
      exact (ascendingY_last q rest Hrest).
    + exact (IH q Hrest C).
Qed.

Lemma walk_mono (prev : Point) (rest : DataPoints) (x1 x2 : Q) :
  ascendingY prev rest -> fst prev < x1 -> x1 <= x2 ->
  walk prev rest x1 <= walk prev rest x2.
Proof.
  revert prev. induction rest as [|q rest IH]; intros prev Hy Hx H12; simpl.
  - apply Qle_refl.
  - destruct Hy as [Hq Hrest].
    destruct (fst q >=? x1) eqn:C1, (fst q >=? x2) eqn:C2; num_prop.
    + apply segment_mono; try assumption.
      apply Qlt_le_trans with x1; assumption.
    + apply Qle_trans with (snd q).
      * apply segment_upper; assumption.
      * apply walk_lower; assumption.
    + exfalso. apply (Qlt_irrefl x1).
      apply Qle_lt_trans with x2; [exact H12|].
      apply Qle_lt_trans with (fst q); assumption.
    + apply IH; assumption.
Qed.

(** ** linearInterpolate, case by case *)

Lemma linearInterpolate_low (first : Point) (rest : DataPoints) (x : Q) :
  x <= fst first -> linearInterpolate (first :: rest) x = Normal (snd first).
Proof.
  intros H. unfold linearInterpolate.
  apply leb_true_iff in H. rewrite H. reflexivity.
Qed.

Lemma linearInterpolate_high (first : Point) (rest : DataPoints) (x : Q) :
  fst first < x -> fst (last (first :: rest) first) <= x ->
  linearInterpolate (first :: rest) x
    = Normal (snd (last (first :: rest) first)).
Proof.
  intros Hlo Hhi. unfold linearInterpolate.
  apply leb_false_iff in Hlo. apply geb_true_iff in Hhi.
  rewrite Hlo, Hhi. reflexivity.
Qed.

Lemma linearInterpolate_char (first : Point) (rest : DataPoints) (x : Q) :
  (x <= fst first /\
   linearInterpolate (first :: rest) x = Normal (snd first)) \/
  (fst first < x /\ fst (last (first :: rest) first) <= x /\
   linearInterpolate (first :: rest) x
     = Normal (snd (last (first :: rest) first))) \/
  (fst first < x /\ x < fst (last (first :: rest) first) /\
   linearInterpolate (first :: rest) x = Normal (walk first rest x)).
Proof.
  destruct (Qlt_le_dec (fst first) x) as [Hlo|Hlo].
  - right. destruct (Qlt_le_dec x (fst (last (first :: rest) first))) as [Hhi|Hhi].
    + right. repeat split; try assumption.
      apply linearInterpolate_walk; assumption.
    + left. repeat split; try assumption.
      apply linearInterpolate_high; assumption.
  - left. split; [assumption|].
    apply linearInterpolate_low; assumption.
Qed.

(** ** C4: the cases of linearInterpolate *)




(** ** C9: monotone and exact *)

Lemma linearInterpolate_bounds (first : Point) (rest : DataPoints) (x : Q) :
  ascendingY first rest ->
  exists v, linearInterpolate (first :: rest) x = Normal v /\
            snd first <= v /\ v <= snd (last (first :: rest) first).
Proof.
  intros Hy. rewrite last_cons_default.
  pose proof (ascendingY_last first rest Hy) as Hl.
  destruct (linearInterpolate_char first rest x)
    as [(_ & ->)|[(_ & _ & ->)|(Hlo & _ & ->)]]; rewrite ?last_cons_default.
  - exists (snd first). repeat split; [apply Qle_refl|exact Hl].
  - exists (snd (last rest first)). repeat split; [exact Hl|apply Qle_refl].
  - exists (walk first rest x). repeat split.
    + apply walk_lower; assumption.
    + apply walk_upper; assumption.
Qed.

Lemma linearInterpolate_monotone
      (first : Point) (rest : DataPoints) (x1 x2 : Q) :
  ascendingY first rest -> x1 <= x2 ->
  exists v1 v2,
    linearInterpolate (first :: rest) x1 = Normal v1 /\
    linearInterpolate (first :: rest) x2 = Normal v2 /\
    v1 <= v2.
Proof.
  intros Hasc H12.
  destruct (linearInterpolate_bounds first rest x1 Hasc) as (v1 & E1 & L1 & U1).
  destruct (linearInterpolate_bounds first rest x2 Hasc) as (v2 & E2 & L2 & U2).
  exists v1, v2. repeat (split; [assumption|]).
  destruct (linearInterpolate_char first rest x1)
    as [(A1 & B1)|[(A1 & A1' & B1)|(A1 & A1' & B1)]];
  destruct (linearInterpolate_char first rest x2)
    as [(A2 & B2)|[(A2 & A2' & B2)|(A2 & A2' & B2)]];
  rewrite E1 in B1; rewrite E2 in B2;
  injection B1 as ->; injection B2 as ->;
  try assumption; try apply Qle_refl; try (exfalso; lra).
  apply walk_mono; assumption.
Qed.








(** ** The engine never raises *)

Lemma linearInterpolate_total (first : Point) (rest : DataPoints) (x : Q) :
  exists v, linearInterpolate (first :: rest) x = Normal v.
Proof.
  destruct (linearInterpolate_char first rest x)
    as [(_ & ->)|[(_ & _ & ->)|(_ & _ & ->)]]; eexists; reflexivity.
Qed.

Lemma bhutani_values (hol : Q) :
  exists low lowIntermediate highIntermediate,
    linearInterpolate bhutaniData.low hol = Normal low /\
    linearInterpolate bhutaniData.lowIntermediate hol = Normal lowIntermediate /\
    linearInterpolate bhutaniData.highIntermediate hol = Normal highIntermediate.
Proof.
  destruct (linearInterpolate_total (12, 3.5) (tl bhutaniData.low) hol) as (a & Ha).
  destruct (linearInterpolate_total (12, 5) (tl bhutaniData.lowIntermediate) hol)
    as (b & Hb).
  destruct (linearInterpolate_total (12, 6.5) (tl bhutaniData.highIntermediate) hol)
    as (c & Hc).
  exists a, b, c. repeat split; assumption.
Qed.

Lemma getBhutaniZone_total (hol tcb : Q) :
  exists zone, getBhutaniZone hol tcb = Normal zone.
Proof.
  unfold getBhutaniZone.
  destruct (bhutani_values hol) as (a & b & c & -> & -> & ->). simpl.
  destruct (hol >? 144), (tcb >? c), (tcb >? b), (tcb >? a); eexists; reflexivity.
Qed.

Lemma aapCurves_cases (aog : Q) (hasRiskFactors : bool) :
  In (aapCurves aog hasRiskFactors)
     [(aapPlData.lowerRisk, aapDvetData.lowerRisk);
      (aapPlData.mediumRisk, aapDvetData.mediumRisk);
      (aapPlData.higherRisk, aapDvetData.higherRisk)].
Proof.
  unfold aapCurves. destruct (aog >=? 38), hasRiskFactors; simpl; auto.
Qed.

Lemma linearInterpolate_nonempty (points : DataPoints) (x : Q) :
  points <> [] -> exists v, linearInterpolate points x = Normal v.
Proof.
  destruct points as [|first rest]; [contradiction|].
  intros _. apply linearInterpolate_total.
Qed.

Lemma aapCurves_values (aog : Q) (hasRiskFactors : bool) (hol : Q) :
  exists plThreshold dvetThreshold,
    linearInterpolate (fst (aapCurves aog hasRiskFactors)) hol = Normal plThreshold /\
    linearInterpolate (snd (aapCurves aog hasRiskFactors)) hol = Normal dvetThreshold.
Proof.
  destruct (aapCurves_cases aog hasRiskFactors) as [<-|[<-|[<-|[]]]];
    cbn [fst snd];
    match goal with
    | |- exists a b, linearInterpolate ?p _ = _ /\ linearInterpolate ?q _ = _ =>
        destruct (linearInterpolate_nonempty p hol) as (a & Ha); [discriminate|];
        destruct (linearInterpolate_nonempty q hol) as (b & Hb); [discriminate|];
        exists a, b; split; assumption
    end.
Qed.

Lemma getAapThresholds_eq (hol aog : Q) (hasRiskFactors : bool) (tcb : Q) :
  exists plThreshold dvetThreshold,
    linearInterpolate (fst (aapCurves aog hasRiskFactors)) hol = Normal plThreshold /\
    linearInterpolate (snd (aapCurves aog hasRiskFactors)) hol = Normal dvetThreshold /\
    getAapThresholds hol aog hasRiskFactors tcb =
      Normal {|
        th_phototherapy := {|
          status := if tcb >=? plThreshold then ABOVE else BELOW;
          threshold := TNumber (parseFloat_toFixed plThreshold 2) |};
        th_exchangeTransfusion := {|
          status := if tcb >=? dvetThreshold then ABOVE else BELOW;
          threshold := TNumber (parseFloat_toFixed dvetThreshold 2) |}
      |}.
Proof.
  destruct (aapCurves_values aog hasRiskFactors hol) as (a & b & Ha & Hb).
  exists a, b. repeat (split; [assumption|]).
  unfold getAapThresholds.
  destruct (aapCurves aog hasRiskFactors) as [plCurve dvetCurve]. simpl in *.
  rewrite Ha, Hb. reflexivity.
Qed.

(** ** The two copies have the shared shape *)

Lemma Part001_shape (host : Host) (input : CalculationInput) :
  Part001.calculateBilirubinRisk host input
    = calculateWith Part001.getMaiselsThresholds host input.
Proof. destruct input. reflexivity. Qed.

Lemma Part000_shape (host : Host) (input : CalculationInput) :
  Part000.calculateBilirubinRisk host input
    = calculateWith Part000.getMaiselsThresholds host input.
Proof. destruct input. reflexivity. Qed.

(** ** What calculateBilirubinRisk returns *)

Lemma isEmpty_true_iff (s : string) : isEmpty s = true <-> s = EmptyString.
Proof. destruct s; simpl; split; intros H; congruence. Qed.

Lemma isEmpty_false_iff (s : string) : isEmpty s = false <-> s <> EmptyString.
Proof. destruct s; simpl; split; intros H; congruence. Qed.

Lemma calculateWith_accepts
      (getMaiselsThresholds : Q -> Q -> TherapyThresholds)
      (host : Host) (input : CalculationInput) (birthDate measurementDate : Z) :
  acceptedAt host input birthDate measurementDate ->
  exists zone therapy,
    (if aogDecimalOf (gestationalWeeks input) (gestationalDays input) <? 35
     then Normal NotApplicable
     else getBhutaniZone (hoursOfLife birthDate measurementDate)
                         (tcbValue input)) = Normal zone /\
    (if aogDecimalOf (gestationalWeeks input) (gestationalDays input) >=? 35
     then getAapThresholds (hoursOfLife birthDate measurementDate)
            (aogDecimalOf (gestationalWeeks input) (gestationalDays input))
            (hasRiskFactors input) (tcbValue input)
     else Normal (getMaiselsThresholds
            (aogDecimalOf (gestationalWeeks input) (gestationalDays input))
            (tcbValue input))) = Normal therapy /\
    calculateWith getMaiselsThresholds host input =
      Normal (Some {|
        dob := toLocaleDateString host birthDate;
        tob := toLocaleTimeString host birthDate;
        hol := parseFloat_toFixed (hoursOfLife birthDate measurementDate) 1;
        tcb := tcbValue input;
        aog := Number_toString (gestationalWeeks input) ++ "w "
               ++ Number_toString (gestationalDays input) ++ "d";
        bhutaniZone := zone;
        phototherapy := th_phototherapy therapy;
        exchangeTransfusion := th_exchangeTransfusion therapy |}).
Proof.
  intros (Hb & Hm & Ht & Hw & Pb & Pm & Hlt).
  unfold calculateWith.
  apply isEmpty_false_iff in Hb, Hm. apply eqb_false_iff in Ht.
  apply Z.eqb_neq in Hw. rewrite Hb, Hm, Ht, Hw, Pb, Pm. cbn [orb].
  replace (measurementDate <=? birthDate)%Z with false
    by (symmetry; apply Z.leb_gt; exact Hlt).
  set (hol := hoursOfLife birthDate measurementDate).
  set (aogDecimal := aogDecimalOf (gestationalWeeks input) (gestationalDays input)).
  assert (Hz : exists zone,
             (if aogDecimal <? 35 then Normal NotApplicable
              else getBhutaniZone hol (tcbValue input)) = Normal zone).
  { destruct (aogDecimal <? 35); [eexists; reflexivity|].
    apply getBhutaniZone_total. }
  assert (Hth : exists therapy,
             (if aogDecimal >=? 35
              then getAapThresholds hol aogDecimal (hasRiskFactors input)
                                    (tcbValue input)
              else Normal (getMaiselsThresholds aogDecimal (tcbValue input)))
             = Normal therapy).
  { destruct (aogDecimal >=? 35); [|eexists; reflexivity].
    destruct (getAapThresholds_eq hol aogDecimal (hasRiskFactors input)
                (tcbValue input)) as (a & b & _ & _ & ->).
    eexists; reflexivity. }
  destruct Hz as (zone & Hz). destruct Hth as (therapy & Hth).
  exists zone, therapy. rewrite Hz, Hth. repeat split.
Qed.

Lemma calculateWith_rejects
      (getMaiselsThresholds : Q -> Q -> TherapyThresholds)
      (host : Host) (input : CalculationInput) :
  (forall birthDate measurementDate,
     ~ acceptedAt host input birthDate measurementDate) ->
  calculateWith getMaiselsThresholds host input = Normal None.
Proof.
  intros Hrej. unfold calculateWith.
  destruct (isEmpty (birthDateTime input)) eqn:Hb; [reflexivity|].
  destruct (isEmpty (measurementDateTime input)) eqn:Hm; [reflexivity|].
  destruct (tcbValue input === 0) eqn:Ht; [reflexivity|].
  destruct (gestationalWeeks input =? 0)%Z eqn:Hw; [reflexivity|]. cbn [orb].
  destruct (Date_parse host (formatDateTime (birthDateTime input)))
    as [birthDate|] eqn:Pb; [|reflexivity].
  destruct (Date_parse host (formatDateTime (measurementDateTime input)))
    as [measurementDate|] eqn:Pm; [|reflexivity].
  destruct (measurementDate <=? birthDate)%Z eqn:Hle; [reflexivity|].
  exfalso. apply (Hrej birthDate measurementDate).
  apply isEmpty_false_iff in Hb, Hm. apply eqb_false_iff in Ht.
  apply Z.eqb_neq in Hw. apply Z.leb_gt in Hle.
  repeat split; assumption.
Qed.

Lemma calculateWith_inv
      (getMaiselsThresholds : Q -> Q -> TherapyThresholds)
      (host : Host) (input : CalculationInput) (r : CalculationResult) :
  calculateWith getMaiselsThresholds host input = Normal (Some r) ->
  exists birthDate measurementDate zone therapy,
    acceptedAt host input birthDate measurementDate /\
    (if aogDecimalOf (gestationalWeeks input) (gestationalDays input) <? 35
     then Normal NotApplicable
     else getBhutaniZone (hoursOfLife birthDate measurementDate)
                         (tcbValue input)) = Normal zone /\
    (if aogDecimalOf (gestationalWeeks input) (gestationalDays input) >=? 35
     then getAapThresholds (hoursOfLife birthDate measurementDate)
            (aogDecimalOf (gestationalWeeks input) (gestationalDays input))
            (hasRiskFactors input) (tcbValue input)
     else Normal (getMaiselsThresholds
            (aogDecimalOf (gestationalWeeks input) (gestationalDays input))
            (tcbValue input))) = Normal therapy /\
    hol r = parseFloat_toFixed (hoursOfLife birthDate measurementDate) 1 /\
    tcb r = tcbValue input /\
    bhutaniZone r = zone /\
    phototherapy r = th_phototherapy therapy /\
    exchangeTransfusion r = th_exchangeTransfusion therapy.
Proof.
  intros H.
  destruct (Date_parse host (formatDateTime (birthDateTime input)))
    as [birthDate|] eqn:Pb.
  2:{ rewrite calculateWith_rejects in H; [discriminate|].
      intros b m (_ & _ & _ & _ & Pb' & _). congruence. }
  destruct (Date_parse host (formatDateTime (measurementDateTime input)))
    as [measurementDate|] eqn:Pm.
  2:{ rewrite calculateWith_rejects in H; [discriminate|].
      intros b m (_ & _ & _ & _ & _ & Pm' & _). congruence. }
  assert (Hacc : acceptedAt host input birthDate measurementDate).
  { destruct (string_dec (birthDateTime input) EmptyString) as [Eb|Eb].
    { rewrite calculateWith_rejects in H; [discriminate|].
      intros b m (Hb & _). contradiction. }
    destruct (string_dec (measurementDateTime input) EmptyString) as [Em|Em].
    { rewrite calculateWith_rejects in H; [discriminate|].
      intros b m (_ & Hm & _). contradiction. }
    destruct (Qeq_dec (tcbValue input) 0) as [Et|Et].
    { rewrite calculateWith_rejects in H; [discriminate|].
      intros b m (_ & _ & Ht & _). contradiction. }
    destruct (Z.eq_dec (gestationalWeeks input) 0) as [Ew|Ew].
    { rewrite calculateWith_rejects in H; [discriminate|].
      intros b m (_ & _ & _ & Hw & _). contradiction. }
    destruct (Z_lt_le_dec birthDate measurementDate) as [Hlt|Hle].
    { repeat split; assumption. }
    rewrite calculateWith_rejects in H; [discriminate|].
    intros b m (_ & _ & _ & _ & Pb' & Pm' & Hlt).
    rewrite Pb in Pb'. rewrite Pm in Pm'.
    injection Pb' as <-. injection Pm' as <-. lia. }
  destruct (calculateWith_accepts getMaiselsThresholds host input _ _ Hacc)
    as (zone & therapy & Hz & Hth & E).
  rewrite E in H. injection H as <-.
  exists birthDate, measurementDate, zone, therapy.
  split; [exact Hacc|]. split; [exact Hz|]. split; [exact Hth|].
  repeat split.
Qed.

(** Replaces each division by a closed number by the product with its
    inverse, written as a literal, so that [lra] reads the goal. *)
Ltac const_div :=
  unfold Qdiv;
  repeat match goal with
  | |- context [ / ?c ] =>
      let v := eval vm_compute in (Qred (/ c)) in
      setoid_replace (/ c) with v by (vm_compute; reflexivity)
  end.

(** ** C8: the Bhutani curves never cross *)

(** C8.  At every hours-of-life value the three interpolated Bhutani
    thresholds exist and satisfy low < lowIntermediate < highIntermediate. *)
Theorem bhutani_curves_ordered (hol : Q) :
  exists low lowIntermediate highIntermediate,
    linearInterpolate bhutaniData.low hol = Normal low /\
    linearInterpolate bhutaniData.lowIntermediate hol = Normal lowIntermediate /\
    linearInterpolate bhutaniData.highIntermediate hol = Normal highIntermediate /\
    low < lowIntermediate /\ lowIntermediate < highIntermediate.
Proof.
  unfold bhutaniData.low, bhutaniData.lowIntermediate, bhutaniData.highIntermediate.
  destruct (Qlt_le_dec 12 hol) as [Hlo|Hlo].
  - destruct (Qlt_le_dec hol 144) as [Hhi|Hhi].
    + do 3 eexists.
      split; [apply linearInterpolate_walk; assumption|].
      split; [apply linearInterpolate_walk; assumption|].
      split; [apply linearInterpolate_walk; assumption|].
      cbn [walk fst snd].
      destruct (24 >=? hol) eqn:C24; [|destruct (36 >=? hol) eqn:C36;
        [|destruct (48 >=? hol) eqn:C48; [|destruct (60 >=? hol) eqn:C60;
        [|destruct (96 >=? hol) eqn:C96; [|destruct (144 >=? hol) eqn:C144]]]]];
      num_prop; unfold segment; cbn [fst snd]; const_div; split; lra.
    + do 3 eexists.
      split; [apply linearInterpolate_high; assumption|].
      split; [apply linearInterpolate_high; assumption|].
      split; [apply linearInterpolate_high; assumption|].
      cbn. split; reflexivity.
  - do 3 eexists.
    split; [apply linearInterpolate_low; assumption|].
    split; [apply linearInterpolate_low; assumption|].
    split; [apply linearInterpolate_low; assumption|].
    cbn. split; reflexivity.
Qed.

(** ** Acceptance, case by case *)

Lemma acceptance_cases (host : Host) (input : CalculationInput) :
  (exists birthDate measurementDate,
     acceptedAt host input birthDate measurementDate) \/
  ((forall birthDate measurementDate,
      ~ acceptedAt host input birthDate measurementDate) /\
   (birthDateTime input = EmptyString \/
    measurementDateTime input = EmptyString \/
    tcbValue input == 0 \/
    gestationalWeeks input = 0%Z \/
    Date_parse host (formatDateTime (birthDateTime input)) = None \/
    Date_parse host (formatDateTime (measurementDateTime input)) = None \/
    exists birthDate measurementDate,
      Date_parse host (formatDateTime (birthDateTime input)) = Some birthDate /\
      Date_parse host (formatDateTime (measurementDateTime input))
        = Some measurementDate /\
      (measurementDate <= birthDate)%Z)).
Proof.
  destruct (string_dec (birthDateTime input) EmptyString) as [Eb|Eb].
  { right. split; [intros b m (Hb & _); contradiction|tauto]. }
  destruct (string_dec (measurementDateTime input) EmptyString) as [Em|Em].
  { right. split; [intros b m (_ & Hm & _); contradiction|tauto]. }
  destruct (Qeq_dec (tcbValue input) 0) as [Et|Et].
  { right. split; [intros b m (_ & _ & Ht & _); contradiction|tauto]. }
  destruct (Z.eq_dec (gestationalWeeks input) 0) as [Ew|Ew].
  { right. split; [intros b m (_ & _ & _ & Hw & _); contradiction|tauto]. }
  destruct (Date_parse host (formatDateTime (birthDateTime input)))
    as [birthDate|] eqn:Pb.
  2:{ right. split; [intros b m (_ & _ & _ & _ & Pb' & _); congruence|tauto]. }
  destruct (Date_parse host (formatDateTime (measurementDateTime input)))
    as [measurementDate|] eqn:Pm.
  2:{ right. split; [intros b m (_ & _ & _ & _ & _ & Pm' & _); congruence|tauto]. }
  destruct (Z_lt_le_dec birthDate measurementDate) as [Hlt|Hle].
  - left. exists birthDate, measurementDate. repeat split; assumption.
  - right. split.
    + intros b m (_ & _ & _ & _ & Pb' & Pm' & Hlt).
      rewrite Pb in Pb'. rewrite Pm in Pm'.
      injection Pb' as <-. injection Pm' as <-. lia.
    + do 6 right. exists birthDate, measurementDate. repeat split. exact Hle.
Qed.


(** ** getBhutaniZone, branch by branch *)



(** ** Rounding and the range of the AAP curves *)


Lemma aapCurve_values_in_range (aog : Q) (hasRiskFactors : bool) (hol v : Q) :
  linearInterpolate (fst (aapCurves aog hasRiskFactors)) hol = Normal v \/
  linearInterpolate (snd (aapCurves aog hasRiskFactors)) hol = Normal v ->
  0 <= v /\ v < inject_Z (10 ^ 21).
Proof.
  assert (Hgen : forall first rest,
             ascendingY first rest -> 0 <= snd first ->
             snd (last (first :: rest) first) <= 25 ->
             linearInterpolate (first :: rest) hol = Normal v ->
             0 <= v /\ v < inject_Z (10 ^ 21)).
  { intros first rest Hy Hlo Hhi Hv.
    destruct (linearInterpolate_bounds first rest hol Hy) as (w & Ew & L & U).
    rewrite Ew in Hv. injection Hv as <-.
    split; [lra|]. apply Qle_lt_trans with 25; [lra|reflexivity]. }
  destruct (aapCurves_cases aog hasRiskFactors) as [<-|[<-|[<-|[]]]];
    cbn [fst snd]; intros [Hv|Hv]; revert Hv; apply Hgen;
    cbn; repeat split; discriminate.
Qed.


(** ** Texts with one normal form *)

Lemma calculateWith_birth_ext
      (getMaiselsThresholds : Q -> Q -> TherapyThresholds)
      (host : Host) (input : CalculationInput) (s s' : string) :
  isEmpty s = isEmpty s' -> formatDateTime s = formatDateTime s' ->
  calculateWith getMaiselsThresholds host (withBirth input s)
    = calculateWith getMaiselsThresholds host (withBirth input s').
Proof.
  intros He Hf. unfold calculateWith. cbn [withBirth birthDateTime
    measurementDateTime tcbValue gestationalWeeks gestationalDays hasRiskFactors].
  rewrite He, Hf. reflexivity.
Qed.

Lemma calculateWith_measurement_ext
      (getMaiselsThresholds : Q -> Q -> TherapyThresholds)
      (host : Host) (input : CalculationInput) (s s' : string) :
  isEmpty s = isEmpty s' -> formatDateTime s = formatDateTime s' ->
  calculateWith getMaiselsThresholds host (withMeasurement input s)
    = calculateWith getMaiselsThresholds host (withMeasurement input s').
Proof.
  intros He Hf. unfold calculateWith. cbn [withMeasurement birthDateTime
    measurementDateTime tcbValue gestationalWeeks gestationalDays hasRiskFactors].
  rewrite He, Hf. reflexivity.
Qed.

Lemma timestampShapes_normal (s : string) :
  In s timestampShapes ->
  isEmpty s = false /\ formatDateTime s = "2024-01-01T10:00"%string.
Proof.
  intros [<-|[<-|[<-|[]]]]; split; reflexivity.
Qed.


(** ** Both copies of the engine, on any host *)

Section BothCopies.

Variable engine : Engine.
Variable host : Host.
Hypothesis engine_is_a_copy : In engine engines.

Lemma engine_shape :
  exists getMaiselsThresholds,
    forall input,
      engine host input = calculateWith getMaiselsThresholds host input.
Proof.
  destruct engine_is_a_copy as [<-|[<-|[]]].
  - exists Part001.getMaiselsThresholds. apply Part001_shape.
  - exists Part000.getMaiselsThresholds. apply Part000_shape.
Qed.

(** *** C3: when the engine returns null *)

(** C3.  Either copy of the engine, on every host and every input, returns
    normally (it never raises), and what it returns is [null] exactly when
    the birth text or the measurement text is empty, the TCB value or the
    gestational weeks is zero, one of the two normalised texts does not
    parse, or the measurement instant is not after the birth instant.
    Otherwise it returns a whole result record. *)
Theorem calculateRisk_null_iff (input : CalculationInput) :
  exists result,
    engine host input = Normal result /\
    (result = None <->
       birthDateTime input = EmptyString \/
       measurementDateTime input = EmptyString \/
       tcbValue input == 0 \/
       gestationalWeeks input = 0%Z \/
       Date_parse host (formatDateTime (birthDateTime input)) = None \/
       Date_parse host (formatDateTime (measurementDateTime input)) = None \/
       exists birthDate measurementDate,
         Date_parse host (formatDateTime (birthDateTime input))
           = Some birthDate /\
         Date_parse host (formatDateTime (measurementDateTime input))
           = Some measurementDate /\
         (measurementDate <= birthDate)%Z).
Proof.
  destruct engine_shape as (maisels & ->).
  destruct (acceptance_cases host input) as [(b & m & Hacc)|(Hrej & Hwhy)].
  - destruct (calculateWith_accepts maisels host input b m Hacc)
      as (zone & therapy & _ & _ & ->).
    eexists. split; [reflexivity|]. split; [discriminate|].
    destruct Hacc as (Hb & Hm & Ht & Hw & Pb & Pm & Hlt).
    intros [E|[E|[E|[E|[E|[E|(b' & m' & Pb' & Pm' & Hle)]]]]]];
      try contradiction; try congruence.
    rewrite Pb in Pb'. rewrite Pm in Pm'.
    injection Pb' as <-. injection Pm' as <-. lia.
  - exists None. split; [apply calculateWith_rejects; exact Hrej|].
    split; [intros _; exact Hwhy|reflexivity].
Qed.

(** *** C5: the Bhutani zone *)


(** *** C6: the AAP thresholds *)


(** *** C10: the Maisels path does not read the timestamps *)

(** C10.  For either copy of the engine: two accepted inputs of gestational
    age below 35 weeks that differ in their birth and measurement texts
    only get the same phototherapy result, the same exchange-transfusion
    result and the same Bhutani zone. *)
Theorem maisels_ignores_timestamps
        (input : CalculationInput) (birth' measurement' : string)
        (r r' : CalculationResult) :
  aogDecimalOf (gestationalWeeks input) (gestationalDays input) < 35 ->
  engine host input = Normal (Some r) ->
  engine host (withMeasurement (withBirth input birth') measurement')
    = Normal (Some r') ->
  phototherapy r = phototherapy r' /\
  exchangeTransfusion r = exchangeTransfusion r' /\
  bhutaniZone r = bhutaniZone r'.
Proof.
  intros Hage H H'. destruct engine_shape as (maisels & Hshape).
  rewrite Hshape in H, H'.
  apply calculateWith_inv in H, H'.
  destruct H as (b & m & zone & therapy & _ & Hz & Ht & _ & _ & -> & -> & ->).
  destruct H' as (b' & m' & zone' & therapy' & _ & Hz' & Ht' & _ & _ & -> & -> & ->).
  cbn [withBirth withMeasurement gestationalWeeks gestationalDays tcbValue
       hasRiskFactors] in Hz', Ht'.
  assert (C1 : (aogDecimalOf (gestationalWeeks input) (gestationalDays input)
                  <? 35) = true) by (apply ltb_true_iff; exact Hage).
  assert (C2 : (aogDecimalOf (gestationalWeeks input) (gestationalDays input)
                  >=? 35) = false) by (apply geb_false_iff; exact Hage).
  rewrite C1 in Hz, Hz'. rewrite C2 in Ht, Ht'.
  injection Hz as <-. injection Hz' as <-.
  injection Ht as <-. injection Ht' as <-.
  repeat split.
Qed.

(** *** C7: three spellings of one instant *)

(** C7.  Each of the three texts normalises to "2024-01-01T10:00", so
    every host reads them as the same instant; and for either copy of the
    engine, putting one of them in place of another as the birth text, or
    as the measurement text, of any input leaves the whole answer
    unchanged, its hours of life included. *)
Theorem timestamp_shapes_agree :
  (forall s, In s timestampShapes ->
     formatDateTime s = "2024-01-01T10:00"%string) /\
  (forall s s',
     In s timestampShapes -> In s' timestampShapes ->
     Date_parse host (formatDateTime s) = Date_parse host (formatDateTime s')) /\
  (forall (input : CalculationInput) s s',
     In s timestampShapes -> In s' timestampShapes ->
     engine host (withBirth input s) = engine host (withBirth input s') /\
     engine host (withMeasurement input s)
       = engine host (withMeasurement input s') /\
     (forall r r',
        engine host (withBirth input s) = Normal (Some r) ->
        engine host (withBirth input s') = Normal (Some r') ->
        hol r = hol r') /\
     (forall r r',
        engine host (withMeasurement input s) = Normal (Some r) ->
        engine host (withMeasurement input s') = Normal (Some r') ->
        hol r = hol r')).
Proof.
  split; [intros s Hs; apply (timestampShapes_normal s Hs)|].
  split.
  { intros s s' Hs Hs'.
    destruct (timestampShapes_normal s Hs) as (_ & ->).
    destruct (timestampShapes_normal s' Hs') as (_ & ->). reflexivity. }
  intros input s s' Hs Hs'.
  destruct engine_shape as (maisels & Hshape).
  destruct (timestampShapes_normal s Hs) as (He & Hf).
  destruct (timestampShapes_normal s' Hs') as (He' & Hf').
  assert (Eb : engine host (withBirth input s) = engine host (withBirth input s')).
  { rewrite !Hshape. apply calculateWith_birth_ext; congruence. }
  assert (Em : engine host (withMeasurement input s)
               = engine host (withMeasurement input s')).
  { rewrite !Hshape. apply calculateWith_measurement_ext; congruence. }
  split; [exact Eb|]. split; [exact Em|]. split.
  - intros r r' Hr Hr'. rewrite Eb in Hr. congruence.
  - intros r r' Hr Hr'. rewrite Em in Hr. congruence.
Qed.

(** *** C2: the AAP example *)

(** C2 (as the code has it).  On a host that reads the two texts of the
    example as instants 24 hours apart, either copy of the engine answers
    with 24 hours of life, a phototherapy threshold of 12 with status BELOW
    (TCB 10 is under 12) and an exchange-transfusion threshold of 19 with
    status BELOW. *)
Theorem aap_example (birthDate : Z) :
  Date_parse host "2024-01-01T10:00" = Some birthDate ->
  Date_parse host "2024-01-02T10:00" = Some (birthDate + 24 * 3600000)%Z ->
  exists r,
    engine host aapExample = Normal (Some r) /\
    hol r = 24 /\
    phototherapy r = {| status := BELOW; threshold := TNumber 12 |} /\
    exchangeTransfusion r = {| status := BELOW; threshold := TNumber 19 |}.
Proof.
  intros Pb Pm. destruct engine_shape as (maisels & ->).
  assert (Hacc : acceptedAt host aapExample birthDate
                   (birthDate + 24 * 3600000)%Z).
  { repeat split; try discriminate; try assumption. lia. }
  destruct (calculateWith_accepts maisels host aapExample _ _ Hacc)
    as (zone & therapy & _ & Hth & ->).
  eexists. split; [reflexivity|].
  assert (Eh : hoursOfLife birthDate (birthDate + 24 * 3600000)
               = hoursOfLife 0 86400000).
  { unfold hoursOfLife. f_equal. f_equal. lia. }
  rewrite Eh in *. cbn [hol phototherapy exchangeTransfusion].
  split; [vm_compute; reflexivity|].
  vm_compute in Hth. injection Hth as <-. split; reflexivity.
Qed.

End BothCopies.

(** ** The theorems at concrete inputs *)

Lemma calculateRisk_null_iff_witness :
  exists result,
    Part001.calculateBilirubinRisk ReferenceHost.host
      (mkInput "2024-01-02T10:00" "2024-01-02T10:00" 10 38 0 false)
      = Normal result /\
    (result = None <->
       "2024-01-02T10:00"%string = EmptyString \/
       "2024-01-02T10:00"%string = EmptyString \/
       10 == 0 \/
       38%Z = 0%Z \/
       ReferenceHost.parse (formatDateTime "2024-01-02T10:00") = None \/
       ReferenceHost.parse (formatDateTime "2024-01-02T10:00") = None \/
       exists birthDate measurementDate,
         ReferenceHost.parse (formatDateTime "2024-01-02T10:00")
           = Some birthDate /\
         ReferenceHost.parse (formatDateTime "2024-01-02T10:00")
           = Some measurementDate /\
         (measurementDate <= birthDate)%Z).
Proof.
  apply (calculateRisk_null_iff Part001.calculateBilirubinRisk
           ReferenceHost.host (or_introl eq_refl)
           (mkInput "2024-01-02T10:00" "2024-01-02T10:00" 10 38 0 false)).
Defined.




Lemma maisels_ignores_timestamps_witness :
  exists r r',
    Part001.calculateBilirubinRisk ReferenceHost.host
      (mkInput "2024-01-01T10:00" "2024-01-02T10:00" 5.5 27 0 false)
      = Normal (Some r) /\
    Part001.calculateBilirubinRisk ReferenceHost.host
      (mkInput "2024-03-05T08:30" "2024-03-09T21:45" 5.5 27 0 false)
      = Normal (Some r') /\
    phototherapy r = phototherapy r' /\
    exchangeTransfusion r = exchangeTransfusion r' /\
    bhutaniZone r = bhutaniZone r'.
Proof.
  eexists. eexists.
  split; [vm_compute; reflexivity|]. split; [vm_compute; reflexivity|].
  apply (maisels_ignores_timestamps Part001.calculateBilirubinRisk
           ReferenceHost.host (or_introl eq_refl)
           (mkInput "2024-01-01T10:00" "2024-01-02T10:00" 5.5 27 0 false)
           "2024-03-05T08:30" "2024-03-09T21:45").
  - vm_compute. reflexivity.
  - vm_compute. reflexivity.
  - vm_compute. reflexivity.
Defined.

Lemma timestamp_shapes_agree_witness :
  Part001.calculateBilirubinRisk ReferenceHost.host
    (withBirth aapExample "2024/01/01 - 10:00")
  = Part001.calculateBilirubinRisk ReferenceHost.host
      (withBirth aapExample "2024-01-01 10:00").
Proof.
  apply (proj2 (proj2 (timestamp_shapes_agree
                         Part001.calculateBilirubinRisk ReferenceHost.host
                         (or_introl eq_refl)))
           aapExample "2024/01/01 - 10:00"%string "2024-01-01 10:00"%string).
  - left. reflexivity.
  - right. left. reflexivity.
Defined.

Lemma aap_example_witness :
  exists r,
    Part001.calculateBilirubinRisk ReferenceHost.host aapExample
      = Normal (Some r) /\
    hol r = 24 /\
    phototherapy r = {| status := BELOW; threshold := TNumber 12 |} /\
    exchangeTransfusion r = {| status := BELOW; threshold := TNumber 19 |}.
Proof.
  apply (aap_example Part001.calculateBilirubinRisk ReferenceHost.host
           (or_introl eq_refl) 1704103200000%Z).
  - vm_compute. reflexivity.
  - vm_compute. reflexivity.
Defined.

(** C2 as the claim words it fails: on the reference host the example is
    24 hours of life and its phototherapy threshold is 12, but the status
    is BELOW, not ABOVE. *)
Lemma aap_example_counterexample :
  exists r,
    Part001.calculateBilirubinRisk ReferenceHost.host aapExample
      = Normal (Some r) /\
    hol r = 24 /\
    threshold (phototherapy r) = TNumber 12 /\
    status (phototherapy r) = BELOW /\
    status (phototherapy r) <> ABOVE.
Proof.
  eexists. split; [vm_compute; reflexivity|]. cbn.
  repeat split; discriminate.
Qed.

(** ** C1: the Maisels bands in the two copies *)

Lemma maiselsKeyOf_bands (aog : Q) :
  (aog < 28 -> maiselsKeyOf aog = key28) /\
  (28 <= aog -> aog < 30 -> maiselsKeyOf aog = key29) /\
  (30 <= aog -> aog < 32 -> maiselsKeyOf aog = key31) /\
  (32 <= aog -> aog < 34 -> maiselsKeyOf aog = key33) /\
  (34 <= aog -> maiselsKeyOf aog = key34).
Proof.
  unfold maiselsKeyOf.
  destruct (aog <? 28) eqn:C28, (aog <? 30) eqn:C30, (aog <? 32) eqn:C32,
           (aog <? 34) eqn:C34; num_prop;
    repeat split; intros; try reflexivity; exfalso; lra.
Qed.

Lemma getStatus_spec (value min max : Q) :
  min <= max ->
  (value < min -> Part000.getStatus value min max = BELOW) /\
  (max < value -> Part000.getStatus value min max = ABOVE) /\
  (min <= value -> value <= max -> Part000.getStatus value min max = WITHIN).
Proof.
  intros Hmm. unfold Part000.getStatus.
  destruct (value >? max) eqn:C1, (value <? min) eqn:C2; num_prop;
    repeat split; intros; try reflexivity; exfalso; lra.
Qed.

Lemma maiselsData_ranges (key : MaiselsKey) :
  inject_Z (fst (Part000.pl (Part000.maiselsData key)))
    <= inject_Z (snd (Part000.pl (Part000.maiselsData key))) /\
  inject_Z (fst (Part000.dvet (Part000.maiselsData key)))
    <= inject_Z (snd (Part000.dvet (Part000.maiselsData key))).
Proof. destruct key; split; vm_compute; discriminate. Qed.

(** The copy of part_000 does what C1 says: the band's range is reported
    as the text "min-max", and the status is BELOW under min, ABOVE over
    max and WITHIN on the closed range. *)
Lemma Part000_getMaiselsThresholds_spec (aog tcb : Q) :
  exists plMin plMax dvetMin dvetMax : Z,
    Part000.maiselsData (maiselsKeyOf aog)
      = Part000.mkBand (plMin, plMax) (dvetMin, dvetMax) /\
    threshold (th_phototherapy (Part000.getMaiselsThresholds aog tcb))
      = TString (Number_toString plMin ++ "-" ++ Number_toString plMax) /\
    threshold (th_exchangeTransfusion (Part000.getMaiselsThresholds aog tcb))
      = TString (Number_toString dvetMin ++ "-" ++ Number_toString dvetMax) /\
    (tcb < inject_Z plMin ->
       status (th_phototherapy (Part000.getMaiselsThresholds aog tcb)) = BELOW) /\
    (inject_Z plMax < tcb ->
       status (th_phototherapy (Part000.getMaiselsThresholds aog tcb)) = ABOVE) /\
    (inject_Z plMin <= tcb -> tcb <= inject_Z plMax ->
       status (th_phototherapy (Part000.getMaiselsThresholds aog tcb)) = WITHIN) /\
    (tcb < inject_Z dvetMin ->
       status (th_exchangeTransfusion (Part000.getMaiselsThresholds aog tcb))
         = BELOW) /\
    (inject_Z dvetMax < tcb ->
       status (th_exchangeTransfusion (Part000.getMaiselsThresholds aog tcb))
         = ABOVE) /\
    (inject_Z dvetMin <= tcb -> tcb <= inject_Z dvetMax ->
       status (th_exchangeTransfusion (Part000.getMaiselsThresholds aog tcb))
         = WITHIN).
Proof.
  unfold Part000.getMaiselsThresholds.
  destruct (maiselsData_ranges (maiselsKeyOf aog)) as (Hpl & Hdvet).
  destruct (Part000.maiselsData (maiselsKeyOf aog))
    as [[plMin plMax] [dvetMin dvetMax]].
  cbn [Part000.pl Part000.dvet fst snd] in *.
  exists plMin, plMax, dvetMin, dvetMax.
  cbn [th_phototherapy th_exchangeTransfusion status threshold].
  destruct (getStatus_spec tcb _ _ Hpl) as (P1 & P2 & P3).
  destruct (getStatus_spec tcb _ _ Hdvet) as (D1 & D2 & D3).
  repeat split; assumption.
Qed.

(** The copy of part_000 on the Maisels path: below 35 weeks the result
    carries what its [getMaiselsThresholds] returns. *)
Lemma Part000_maisels_path
      (host : Host) (input : CalculationInput) (r : CalculationResult) :
  Part000.calculateBilirubinRisk host input = Normal (Some r) ->
  aogDecimalOf (gestationalWeeks input) (gestationalDays input) < 35 ->
  phototherapy r =
    th_phototherapy
      (Part000.getMaiselsThresholds
         (aogDecimalOf (gestationalWeeks input) (gestationalDays input))
         (tcbValue input)) /\
  exchangeTransfusion r =
    th_exchangeTransfusion
      (Part000.getMaiselsThresholds
         (aogDecimalOf (gestationalWeeks input) (gestationalDays input))
         (tcbValue input)).
Proof.
  intros H Hage. rewrite Part000_shape in H. apply calculateWith_inv in H.
  destruct H as (b & m & zone & therapy & _ & _ & Ht & _ & _ & _ & -> & ->).
  apply geb_false_iff in Hage. rewrite Hage in Ht. injection Ht as <-.
  split; reflexivity.
Qed.

(** The copy of part_001 never answers WITHIN and never reports a text. *)
Lemma Part001_getMaiselsThresholds_single (aog tcb : Q) :
  status (th_phototherapy (Part001.getMaiselsThresholds aog tcb)) <> WITHIN /\
  status (th_exchangeTransfusion (Part001.getMaiselsThresholds aog tcb))
    <> WITHIN /\
  threshold (th_phototherapy (Part001.getMaiselsThresholds aog tcb))
    = TNumber (Part001.pl (Part001.maiselsData (maiselsKeyOf aog))) /\
  threshold (th_exchangeTransfusion (Part001.getMaiselsThresholds aog tcb))
    = TNumber (Part001.dvet (Part001.maiselsData (maiselsKeyOf aog))).
Proof.
  unfold Part001.getMaiselsThresholds.
  cbn [th_phototherapy th_exchangeTransfusion status threshold].
  repeat split.
  - destruct (tcb >=? _); discriminate.
  - destruct (tcb >=? _); discriminate.
Qed.

(** C1 at its own example, in both copies.  Gestational age 27 weeks, TCB
    5.5: the copy of part_001 reports the single number 6 with status
    BELOW (and 14, BELOW, for the exchange transfusion), also through
    [calculateBilirubinRisk]; the copy of part_000 reports the range "5-6"
    with status WITHIN (and "11-14", BELOW). *)
Theorem maisels_example_in_both_copies :
  Part001.getMaiselsThresholds 27 5.5 =
    {| th_phototherapy := {| status := BELOW; threshold := TNumber 6 |};
       th_exchangeTransfusion := {| status := BELOW; threshold := TNumber 14 |} |}
  /\
  (exists r,
     Part001.calculateBilirubinRisk ReferenceHost.host
       (mkInput "2024-01-01T10:00" "2024-01-02T10:00" 5.5 27 0 false)
       = Normal (Some r) /\
     phototherapy r = {| status := BELOW; threshold := TNumber 6 |} /\
     exchangeTransfusion r = {| status := BELOW; threshold := TNumber 14 |})
  /\
  Part000.getMaiselsThresholds 27 5.5 =
    {| th_phototherapy := {| status := WITHIN; threshold := TString "5-6" |};
       th_exchangeTransfusion :=
         {| status := BELOW; threshold := TString "11-14" |} |}.
Proof.
  split; [vm_compute; reflexivity|]. split; [|vm_compute; reflexivity].
  eexists. split; [vm_compute; reflexivity|]. split; reflexivity.
Qed.

(** * Further properties of the code *)

(** ** The value of an interpolation *)

Lemma linearInterpolate_valueAt (first : Point) (rest : DataPoints) (x : Q) :
  linearInterpolate (first :: rest) x = Normal (valueAt first rest x).
Proof.
  unfold valueAt.
  destruct (linearInterpolate_char first rest x)
    as [(A & ->)|[(A & B & ->)|(A & B & ->)]].
  - apply leb_true_iff in A. rewrite A. reflexivity.
  - apply leb_false_iff in A. apply geb_true_iff in B. rewrite A, B. reflexivity.
  - apply leb_false_iff in A. apply geb_false_iff in B. rewrite A, B. reflexivity.
Qed.

(** Splits a goal about [valueAt] on explicit tables into the stretches of
    the query, each stretch left to linear arithmetic. *)
Ltac stretches :=
  unfold valueAt; cbn [walk last fst snd];
  repeat match goal with
  | |- context [?a <=? ?b] => destruct (a <=? b) eqn:?
  | |- context [?a >=? ?b] => destruct (a >=? b) eqn:?
  end;
  num_prop; unfold segment; cbn [fst snd]; const_div.


(** ** No overshoot, and the one way to raise *)


(** ** The exchange threshold lies above the phototherapy threshold *)

Lemma aap_exchange_over_phototherapy (aog : Q) (hasRiskFactors : bool) (hol : Q) :
  exists plThreshold dvetThreshold,
    linearInterpolate (fst (aapCurves aog hasRiskFactors)) hol
      = Normal plThreshold /\
    linearInterpolate (snd (aapCurves aog hasRiskFactors)) hol
      = Normal dvetThreshold /\
    plThreshold + 3.5 <= dvetThreshold.
Proof.
  destruct (aapCurves_cases aog hasRiskFactors) as [<-|[<-|[<-|[]]]];
    cbn [fst snd];
    unfold aapPlData.lowerRisk, aapDvetData.lowerRisk,
           aapPlData.mediumRisk, aapDvetData.mediumRisk,
           aapPlData.higherRisk, aapDvetData.higherRisk;
    do 2 eexists;
    (split; [apply linearInterpolate_valueAt|]);
    (split; [apply linearInterpolate_valueAt|]);
    stretches; lra.
Qed.

Lemma maisels_exchange_over_phototherapy_001 (aog tcb : Q) :
  status (th_exchangeTransfusion (Part001.getMaiselsThresholds aog tcb)) <> BELOW ->
  status (th_phototherapy (Part001.getMaiselsThresholds aog tcb)) = ABOVE.
Proof.
  unfold Part001.getMaiselsThresholds.
  cbn [th_phototherapy th_exchangeTransfusion status].
  destruct (maiselsKeyOf aog); cbn [Part001.maiselsData Part001.pl Part001.dvet];
    match goal with
    | |- (if ?a then _ else _) <> _ -> (if ?b then _ else _) = _ =>
        destruct a eqn:?, b eqn:?
    end; intros H; try reflexivity; try (exfalso; apply H; reflexivity);
    num_prop; exfalso; lra.
Qed.

Lemma maisels_exchange_over_phototherapy_000 (aog tcb : Q) :
  status (th_exchangeTransfusion (Part000.getMaiselsThresholds aog tcb)) <> BELOW ->
  status (th_phototherapy (Part000.getMaiselsThresholds aog tcb)) = ABOVE.
Proof.
  unfold Part000.getMaiselsThresholds.
  destruct (maiselsKeyOf aog);
    cbn [Part000.maiselsData Part000.pl Part000.dvet
         th_phototherapy th_exchangeTransfusion status];
    unfold Part000.getStatus;
    repeat match goal with
    | |- context [?a >? ?b] => destruct (a >? b) eqn:?
    | |- context [?a <? ?b] => destruct (a <? b) eqn:?
    end; intros H; try reflexivity; try (exfalso; apply H; reflexivity);
    num_prop; unfold inject_Z in *; exfalso; lra.
Qed.

Section BothCopiesFurther.

Variable engine : Engine.
Variable host : Host.
Hypothesis engine_is_a_copy : In engine engines.

(** X2.  Whatever the path (AAP or Maisels) and the copy of the engine: a TCB
    that is not below the exchange-transfusion threshold is above the
    phototherapy threshold. *)
Theorem exchange_implies_phototherapy
        (input : CalculationInput) (r : CalculationResult) :
  engine host input = Normal (Some r) ->
  status (exchangeTransfusion r) <> BELOW ->
  status (phototherapy r) = ABOVE.
Proof.
  intros H.
  assert (Hm : exists maisels,
             calculateWith maisels host input = Normal (Some r) /\
             forall aog tcb,
               status (th_exchangeTransfusion (maisels aog tcb)) <> BELOW ->
               status (th_phototherapy (maisels aog tcb)) = ABOVE).
  { destruct engine_is_a_copy as [<-|[<-|[]]].
    - exists Part001.getMaiselsThresholds. rewrite <- Part001_shape.
      split; [exact H|]. apply maisels_exchange_over_phototherapy_001.
    - exists Part000.getMaiselsThresholds. rewrite <- Part000_shape.
      split; [exact H|]. apply maisels_exchange_over_phototherapy_000. }
  destruct Hm as (maisels & Hc & Hmaisels).
  apply calculateWith_inv in Hc.
  destruct Hc as (b & m & zone & therapy & _ & _ & Ht & _ & _ & _ & -> & ->).
  destruct (aogDecimalOf (gestationalWeeks input) (gestationalDays input) >=? 35).
  - destruct (aap_exchange_over_phototherapy
                (aogDecimalOf (gestationalWeeks input) (gestationalDays input))
                (hasRiskFactors input) (hoursOfLife b m))
      as (pl & dv & Hpl & Hdv & Hgap).
    destruct (getAapThresholds_eq (hoursOfLife b m)
                (aogDecimalOf (gestationalWeeks input) (gestationalDays input))
                (hasRiskFactors input) (tcbValue input))
      as (pl' & dv' & Hpl' & Hdv' & E).
    rewrite Hpl in Hpl'. rewrite Hdv in Hdv'.
    injection Hpl' as <-. injection Hdv' as <-.
    rewrite E in Ht. injection Ht as <-.
    cbn [th_phototherapy th_exchangeTransfusion status].
    destruct (tcbValue input >=? dv) eqn:C1, (tcbValue input >=? pl) eqn:C2;
      intros Hs; try reflexivity; try (exfalso; apply Hs; reflexivity).
    num_prop. exfalso. lra.
  - injection Ht as <-. apply Hmaisels.
Qed.

End BothCopiesFurther.

Lemma exchange_implies_phototherapy_witness :
  exists r,
    Part000.calculateBilirubinRisk ReferenceHost.host
      (mkInput "2024-01-01T10:00" "2024-01-02T10:00" 12 27 0 false)
      = Normal (Some r) /\
    status (exchangeTransfusion r) = WITHIN /\
    status (phototherapy r) = ABOVE.
Proof.
  eexists. split; [vm_compute; reflexivity|]. split; [reflexivity|].
  apply (exchange_implies_phototherapy Part000.calculateBilirubinRisk
           ReferenceHost.host (or_intror (or_introl eq_refl))
           (mkInput "2024-01-01T10:00" "2024-01-02T10:00" 12 27 0 false)).
  - vm_compute. reflexivity.
  - discriminate.
Defined.

(** ** Rounding keeps the order *)

Lemma parseFloat_toFixed_mono (x y : Q) (fractionDigits : nat) :
  0 <= x -> x <= y -> y < inject_Z (10 ^ 21) ->
  parseFloat_toFixed x fractionDigits <= parseFloat_toFixed y fractionDigits.
Proof.
  intros H0 Hxy Hbig. unfold parseFloat_toFixed.
  assert (Hax : Qabs x = x).
  { destruct x as [n d]. unfold Qle in H0. simpl in *.
    f_equal. apply Z.abs_eq. lia. }
  assert (H0y : 0 <= y) by (apply Qle_trans with x; assumption).
  assert (Hay : Qabs y = y).
  { destruct y as [n d]. unfold Qle in H0y. simpl in *.
    f_equal. apply Z.abs_eq. lia. }
  rewrite Hax, Hay.
  replace (x >=? inject_Z (10 ^ 21)) with false
    by (symmetry; apply geb_false_iff; apply Qle_lt_trans with y; assumption).
  replace (y >=? inject_Z (10 ^ 21)) with false
    by (symmetry; apply geb_false_iff; exact Hbig).
  replace (x <? 0) with false by (symmetry; apply ltb_false_iff; exact H0).
  replace (y <? 0) with false by (symmetry; apply ltb_false_iff; exact H0y).
  apply Qred_le.
  set (scale := inject_Z (10 ^ Z.of_nat fractionDigits)).
  assert (Hs : 0 < scale).
  { unfold scale. change 0 with (inject_Z 0). rewrite <- Zlt_Qlt.
    apply Z.pow_pos_nonneg; lia. }
  unfold Qdiv. apply Qmult_le_compat_r.
  - rewrite <- Zle_Qle. apply Qfloor_resp_le.
    apply Qplus_le_l. apply Qmult_le_compat_r; [exact Hxy|].
    apply Qlt_le_weak. exact Hs.
  - apply Qlt_le_weak, Qinv_lt_0_compat. exact Hs.
Qed.

(** ** The AAP tiers, compared *)

Lemma aap_tier_values (hol : Q) :
  valueAt (0, 3) (tl aapPlData.higherRisk) hol
    < valueAt (0, 4) (tl aapPlData.mediumRisk) hol /\
  valueAt (0, 4) (tl aapPlData.mediumRisk) hol
    < valueAt (0, 5) (tl aapPlData.lowerRisk) hol /\
  valueAt (0, 8) (tl aapDvetData.higherRisk) hol
    < valueAt (0, 10) (tl aapDvetData.mediumRisk) hol /\
  valueAt (0, 10) (tl aapDvetData.mediumRisk) hol
    < valueAt (0, 12) (tl aapDvetData.lowerRisk) hol.
Proof.
  cbn [tl aapPlData.higherRisk aapPlData.mediumRisk aapPlData.lowerRisk
       aapDvetData.higherRisk aapDvetData.mediumRisk aapDvetData.lowerRisk].
  repeat split; stretches; lra.
Qed.

Lemma getAapThresholds_compare
      (hol tcb aogA aogB : Q) (riskA riskB : bool) :
  (forall plA plB,
     linearInterpolate (fst (aapCurves aogA riskA)) hol = Normal plA ->
     linearInterpolate (fst (aapCurves aogB riskB)) hol = Normal plB ->
     plB <= plA) ->
  (forall dvetA dvetB,
     linearInterpolate (snd (aapCurves aogA riskA)) hol = Normal dvetA ->
     linearInterpolate (snd (aapCurves aogB riskB)) hol = Normal dvetB ->
     dvetB <= dvetA) ->
  exists a b plA plB dvetA dvetB,
    getAapThresholds hol aogA riskA tcb = Normal a /\
    getAapThresholds hol aogB riskB tcb = Normal b /\
    threshold (th_phototherapy a) = TNumber plA /\
    threshold (th_phototherapy b) = TNumber plB /\
    plB <= plA /\
    threshold (th_exchangeTransfusion a) = TNumber dvetA /\
    threshold (th_exchangeTransfusion b) = TNumber dvetB /\
    dvetB <= dvetA /\
    (status (th_phototherapy a) = ABOVE -> status (th_phototherapy b) = ABOVE) /\
    (status (th_exchangeTransfusion a) = ABOVE ->
     status (th_exchangeTransfusion b) = ABOVE).
Proof.
  intros Hpl Hdvet.
  destruct (getAapThresholds_eq hol aogA riskA tcb) as (pa & da & Hpa & Hda & ->).
  destruct (getAapThresholds_eq hol aogB riskB tcb) as (pb & db & Hpb & Hdb & ->).
  specialize (Hpl pa pb Hpa Hpb). specialize (Hdvet da db Hda Hdb).
  destruct (aapCurve_values_in_range aogA riskA hol pa (or_introl Hpa)) as (_ & Hpa1).
  destruct (aapCurve_values_in_range aogA riskA hol da (or_intror Hda)) as (_ & Hda1).
  destruct (aapCurve_values_in_range aogB riskB hol pb (or_introl Hpb)) as (Hpb0 & _).
  destruct (aapCurve_values_in_range aogB riskB hol db (or_intror Hdb)) as (Hdb0 & _).
  do 6 eexists.
  split; [reflexivity|]. split; [reflexivity|].
  cbn [th_phototherapy th_exchangeTransfusion status threshold].
  split; [reflexivity|]. split; [reflexivity|].
  split; [apply parseFloat_toFixed_mono; assumption|].
  split; [reflexivity|]. split; [reflexivity|].
  split; [apply parseFloat_toFixed_mono; assumption|].
  split.
  - destruct (tcb >=? pa) eqn:Ca, (tcb >=? pb) eqn:Cb; intros H;
      try reflexivity; try discriminate H. num_prop. exfalso. lra.
  - destruct (tcb >=? da) eqn:Ca, (tcb >=? db) eqn:Cb; intros H;
      try reflexivity; try discriminate H. num_prop. exfalso. lra.
Qed.

(** Proves that one explicit AAP curve lies under another at [hol]. *)
Ltac curve_under :=
  intros ? ? Ha Hb;
  unfold aapPlData.lowerRisk, aapDvetData.lowerRisk,
         aapPlData.mediumRisk, aapDvetData.mediumRisk,
         aapPlData.higherRisk, aapDvetData.higherRisk in Ha, Hb;
  rewrite linearInterpolate_valueAt in Ha, Hb;
  injection Ha as <-; injection Hb as <-;
  apply Qlt_le_weak; apply aap_tier_values.

(** X3.  With risk factors no AAP threshold is higher than without them, at the
    same hours of life and gestational age; so a TCB that is ABOVE without
    risk factors is ABOVE with them. *)
Theorem risk_factors_never_raise_thresholds (hol aog tcb : Q) :
  exists without withRisk plA plB dvetA dvetB,
    getAapThresholds hol aog false tcb = Normal without /\
    getAapThresholds hol aog true tcb = Normal withRisk /\
    threshold (th_phototherapy without) = TNumber plA /\
    threshold (th_phototherapy withRisk) = TNumber plB /\
    plB <= plA /\
    threshold (th_exchangeTransfusion without) = TNumber dvetA /\
    threshold (th_exchangeTransfusion withRisk) = TNumber dvetB /\
    dvetB <= dvetA /\
    (status (th_phototherapy without) = ABOVE ->
     status (th_phototherapy withRisk) = ABOVE) /\
    (status (th_exchangeTransfusion without) = ABOVE ->
     status (th_exchangeTransfusion withRisk) = ABOVE).
Proof.
  apply getAapThresholds_compare; unfold aapCurves;
    destruct (aog >=? 38); cbn [fst snd]; curve_under.
Qed.

(** X4.  Below 38 weeks no AAP threshold is higher than from 38 weeks on, at the
    same hours of life and risk flag. *)
Theorem earlier_gestation_never_raises_thresholds
        (hol tcb younger older : Q) (hasRiskFactors : bool) :
  younger < 38 -> 38 <= older ->
  exists atOlder atYounger plA plB dvetA dvetB,
    getAapThresholds hol older hasRiskFactors tcb = Normal atOlder /\
    getAapThresholds hol younger hasRiskFactors tcb = Normal atYounger /\
    threshold (th_phototherapy atOlder) = TNumber plA /\
    threshold (th_phototherapy atYounger) = TNumber plB /\
    plB <= plA /\
    threshold (th_exchangeTransfusion atOlder) = TNumber dvetA /\
    threshold (th_exchangeTransfusion atYounger) = TNumber dvetB /\
    dvetB <= dvetA /\
    (status (th_phototherapy atOlder) = ABOVE ->
     status (th_phototherapy atYounger) = ABOVE) /\
    (status (th_exchangeTransfusion atOlder) = ABOVE ->
     status (th_exchangeTransfusion atYounger) = ABOVE).
Proof.
  intros Hy Ho. apply geb_false_iff in Hy. apply geb_true_iff in Ho.
  apply getAapThresholds_compare; unfold aapCurves; rewrite Hy, Ho;
    destruct hasRiskFactors; cbn [fst snd]; curve_under.
Qed.

Lemma earlier_gestation_never_raises_thresholds_witness :
  exists atOlder atYounger plA plB dvetA dvetB,
    getAapThresholds 30 39 false 12.5 = Normal atOlder /\
    getAapThresholds 30 36 false 12.5 = Normal atYounger /\
    threshold (th_phototherapy atOlder) = TNumber plA /\
    threshold (th_phototherapy atYounger) = TNumber plB /\
    plB <= plA /\
    threshold (th_exchangeTransfusion atOlder) = TNumber dvetA /\
    threshold (th_exchangeTransfusion atYounger) = TNumber dvetB /\
    dvetB <= dvetA /\
    (status (th_phototherapy atOlder) = ABOVE ->
     status (th_phototherapy atYounger) = ABOVE) /\
    (status (th_exchangeTransfusion atOlder) = ABOVE ->
     status (th_exchangeTransfusion atYounger) = ABOVE).
Proof.
  apply (earlier_gestation_never_raises_thresholds 30 12.5 36 39 false);
    vm_compute; [reflexivity|discriminate].
Defined.

(** ** Later hours of life *)

Lemma table_monotone (points : DataPoints) (x1 x2 : Q) :
  points <> [] -> nonDecreasingY points = true -> x1 <= x2 ->
  exists v1 v2,
    linearInterpolate points x1 = Normal v1 /\
    linearInterpolate points x2 = Normal v2 /\
    v1 <= v2.
Proof.
  intros Hne Hy H12. destruct points as [|first rest]; [contradiction|].
  apply linearInterpolate_monotone; [|exact H12].
  apply nonDecreasingY_ascending. exact Hy.
Qed.

Lemma aapCurves_monotone (aog : Q) (hasRiskFactors : bool) (hol1 hol2 : Q) :
  hol1 <= hol2 ->
  exists pl1 pl2 dvet1 dvet2,
    linearInterpolate (fst (aapCurves aog hasRiskFactors)) hol1 = Normal pl1 /\
    linearInterpolate (fst (aapCurves aog hasRiskFactors)) hol2 = Normal pl2 /\
    linearInterpolate (snd (aapCurves aog hasRiskFactors)) hol1 = Normal dvet1 /\
    linearInterpolate (snd (aapCurves aog hasRiskFactors)) hol2 = Normal dvet2 /\
    pl1 <= pl2 /\ dvet1 <= dvet2.
Proof.
  intros H12.
  destruct (aapCurves_cases aog hasRiskFactors) as [<-|[<-|[<-|[]]]];
    cbn [fst snd];
    match goal with
    | |- exists a b c d,
           linearInterpolate ?p _ = _ /\ _ /\ linearInterpolate ?q _ = _ /\ _ =>
        destruct (table_monotone p hol1 hol2) as (a & b & Ha & Hb & Hab);
          [discriminate|reflexivity|exact H12|];
        destruct (table_monotone q hol1 hol2) as (c & d & Hc & Hd & Hcd);
          [discriminate|reflexivity|exact H12|];
        exists a, b, c, d; repeat split; assumption
    end.
Qed.

(** X5.  The AAP thresholds do not fall as the hours of life go by (same
    gestational age and risk flag); so a TCB that is ABOVE at a later hour
    was ABOVE at every earlier one. *)
Theorem aap_thresholds_rise_with_hours
        (earlier later aog : Q) (hasRiskFactors : bool) (tcb : Q) :
  earlier <= later ->
  exists atEarlier atLater pl1 pl2 dvet1 dvet2,
    getAapThresholds earlier aog hasRiskFactors tcb = Normal atEarlier /\
    getAapThresholds later aog hasRiskFactors tcb = Normal atLater /\
    threshold (th_phototherapy atEarlier) = TNumber pl1 /\
    threshold (th_phototherapy atLater) = TNumber pl2 /\
    pl1 <= pl2 /\
    threshold (th_exchangeTransfusion atEarlier) = TNumber dvet1 /\
    threshold (th_exchangeTransfusion atLater) = TNumber dvet2 /\
    dvet1 <= dvet2 /\
    (status (th_phototherapy atLater) = ABOVE ->
     status (th_phototherapy atEarlier) = ABOVE) /\
    (status (th_exchangeTransfusion atLater) = ABOVE ->
     status (th_exchangeTransfusion atEarlier) = ABOVE).
Proof.
  intros H12.
  destruct (aapCurves_monotone aog hasRiskFactors earlier later H12)
    as (p1 & p2 & d1 & d2 & Hp1 & Hp2 & Hd1 & Hd2 & Hp & Hd).
  destruct (getAapThresholds_eq earlier aog hasRiskFactors tcb)
    as (p1' & d1' & Hp1' & Hd1' & ->).
  destruct (getAapThresholds_eq later aog hasRiskFactors tcb)
    as (p2' & d2' & Hp2' & Hd2' & ->).
  rewrite Hp1 in Hp1'. rewrite Hp2 in Hp2'. rewrite Hd1 in Hd1'. rewrite Hd2 in Hd2'.
  injection Hp1' as <-. injection Hp2' as <-.
  injection Hd1' as <-. injection Hd2' as <-.
  destruct (aapCurve_values_in_range aog hasRiskFactors earlier p1 (or_introl Hp1))
    as (Hp10 & _).
  destruct (aapCurve_values_in_range aog hasRiskFactors earlier d1 (or_intror Hd1))
    as (Hd10 & _).
  destruct (aapCurve_values_in_range aog hasRiskFactors later p2 (or_introl Hp2))
    as (_ & Hp21).
  destruct (aapCurve_values_in_range aog hasRiskFactors later d2 (or_intror Hd2))
    as (_ & Hd21).
  do 6 eexists.
  split; [reflexivity|]. split; [reflexivity|].
  cbn [th_phototherapy th_exchangeTransfusion status threshold].
  split; [reflexivity|]. split; [reflexivity|].
  split; [apply parseFloat_toFixed_mono; assumption|].
  split; [reflexivity|]. split; [reflexivity|].
  split; [apply parseFloat_toFixed_mono; assumption|].
  split.
  - destruct (tcb >=? p2) eqn:Ca, (tcb >=? p1) eqn:Cb; intros H;
      try reflexivity; try discriminate H. num_prop. exfalso. lra.
  - destruct (tcb >=? d2) eqn:Ca, (tcb >=? d1) eqn:Cb; intros H;
      try reflexivity; try discriminate H. num_prop. exfalso. lra.
Qed.

Lemma aap_thresholds_rise_with_hours_witness :
  exists atEarlier atLater pl1 pl2 dvet1 dvet2,
    getAapThresholds 30 38 false 14 = Normal atEarlier /\
    getAapThresholds 60 38 false 14 = Normal atLater /\
    threshold (th_phototherapy atEarlier) = TNumber pl1 /\
    threshold (th_phototherapy atLater) = TNumber pl2 /\
    pl1 <= pl2 /\
    threshold (th_exchangeTransfusion atEarlier) = TNumber dvet1 /\
    threshold (th_exchangeTransfusion atLater) = TNumber dvet2 /\
    dvet1 <= dvet2 /\
    (status (th_phototherapy atLater) = ABOVE ->
     status (th_phototherapy atEarlier) = ABOVE) /\
    (status (th_exchangeTransfusion atLater) = ABOVE ->
     status (th_exchangeTransfusion atEarlier) = ABOVE).
Proof.
  apply (aap_thresholds_rise_with_hours 30 60 38 false 14).
  vm_compute. discriminate.
Defined.

(** X6.  The Bhutani zone does not get graver when the measurement is later or
    the TCB lower: within the first 144 hours, for [earlier <= later] and
    [lower <= higher], the zone of the lower TCB at the later hour ranks at
    most as the zone of the higher TCB at the earlier hour, and both are
    zones proper. *)
Theorem bhutani_zone_monotone (earlier later lower higher : Q) :
  earlier <= later -> later <= 144 -> lower <= higher ->
  exists graver milder,
    getBhutaniZone earlier higher = Normal graver /\
    getBhutaniZone later lower = Normal milder /\
    (zoneRank milder <= zoneRank graver)%nat /\
    graver <> NotApplicable /\ milder <> NotApplicable.
Proof.
  intros Hh H144 Ht.
  destruct (table_monotone bhutaniData.low earlier later)
    as (lo1 & lo2 & Hlo1 & Hlo2 & Hlo); [discriminate|reflexivity|exact Hh|].
  destruct (table_monotone bhutaniData.lowIntermediate earlier later)
    as (li1 & li2 & Hli1 & Hli2 & Hli); [discriminate|reflexivity|exact Hh|].
  destruct (table_monotone bhutaniData.highIntermediate earlier later)
    as (hi1 & hi2 & Hhi1 & Hhi2 & Hhi); [discriminate|reflexivity|exact Hh|].
  unfold getBhutaniZone. rewrite Hlo1, Hlo2, Hli1, Hli2, Hhi1, Hhi2. cbn [bind].
  replace (later >? 144) with false
    by (symmetry; apply gtb_false_iff; exact H144).
  replace (earlier >? 144) with false
    by (symmetry; apply gtb_false_iff; apply Qle_trans with later; assumption).
  destruct (higher >? hi1) eqn:A1, (higher >? li1) eqn:A2, (higher >? lo1) eqn:A3,
           (lower >? hi2) eqn:B1, (lower >? li2) eqn:B2, (lower >? lo2) eqn:B3;
    num_prop; do 2 eexists; (split; [reflexivity|]); (split; [reflexivity|]);
    cbn [zoneRank];
    first [ split; [lia|split; discriminate] | exfalso; lra ].
Qed.

Lemma bhutani_zone_monotone_witness :
  exists graver milder,
    getBhutaniZone 24 9 = Normal graver /\
    getBhutaniZone 48 8 = Normal milder /\
    (zoneRank milder <= zoneRank graver)%nat /\
    graver <> NotApplicable /\ milder <> NotApplicable.
Proof.
  apply (bhutani_zone_monotone 24 48 8 9); vm_compute; discriminate.
Defined.

(** ** The hours of life that are reported *)



Section ReportedFields.

Variable engine : Engine.
Variable host : Host.
Hypothesis engine_is_a_copy : In engine engines.


(** X8.  The status N/A that types.ts declares is never produced; on the AAP
    path (35 weeks or more) the status is never WITHIN and the threshold is
    a number. *)
Theorem statuses_produced (input : CalculationInput) (r : CalculationResult) :
  engine host input = Normal (Some r) ->
  status (phototherapy r) <> NA /\
  status (exchangeTransfusion r) <> NA /\
  (35 <= aogDecimalOf (gestationalWeeks input) (gestationalDays input) ->
   status (phototherapy r) <> WITHIN /\
   status (exchangeTransfusion r) <> WITHIN /\
   (exists n, threshold (phototherapy r) = TNumber n) /\
   (exists n, threshold (exchangeTransfusion r) = TNumber n)).
Proof.
  intros H.
  assert (Hm : exists maisels,
             calculateWith maisels host input = Normal (Some r) /\
             forall aog tcb,
               status (th_phototherapy (maisels aog tcb)) <> NA /\
               status (th_exchangeTransfusion (maisels aog tcb)) <> NA).
  { destruct engine_is_a_copy as [<-|[<-|[]]].
    - exists Part001.getMaiselsThresholds. rewrite <- Part001_shape.
      split; [exact H|]. intros aog tcb. unfold Part001.getMaiselsThresholds.
      cbn [th_phototherapy th_exchangeTransfusion status].
      split; match goal with |- (if ?c then _ else _) <> _ => destruct c end;
        discriminate.
    - exists Part000.getMaiselsThresholds. rewrite <- Part000_shape.
      split; [exact H|]. intros aog tcb. unfold Part000.getMaiselsThresholds.
      destruct (Part000.maiselsData (maiselsKeyOf aog)) as [[a b] [c d]].
      cbn [Part000.pl Part000.dvet th_phototherapy th_exchangeTransfusion status].
      unfold Part000.getStatus.
      split; repeat match goal with
                    | |- context [if ?c then _ else _] => destruct c
                    end; discriminate. }
  destruct Hm as (maisels & Hc & Hmaisels).
  apply calculateWith_inv in Hc.
  destruct Hc as (b & m & zone & therapy & _ & _ & Ht & _ & _ & _ & -> & ->).
  destruct (getAapThresholds_eq (hoursOfLife b m)
              (aogDecimalOf (gestationalWeeks input) (gestationalDays input))
              (hasRiskFactors input) (tcbValue input))
    as (pl & dv & _ & _ & E).
  destruct (aogDecimalOf (gestationalWeeks input) (gestationalDays input) >=? 35)
    eqn:Cage.
  - rewrite E in Ht. injection Ht as <-.
    cbn [th_phototherapy th_exchangeTransfusion status threshold].
    destruct (tcbValue input >=? pl), (tcbValue input >=? dv);
      repeat split; try discriminate; eexists; reflexivity.
  - injection Ht as <-. destruct (Hmaisels
      (aogDecimalOf (gestationalWeeks input) (gestationalDays input))
      (tcbValue input)) as (A & B).
    split; [exact A|]. split; [exact B|].
    intros Hge. num_prop. exfalso. lra.
Qed.

End ReportedFields.


Lemma statuses_produced_witness :
  exists r,
    Part000.calculateBilirubinRisk ReferenceHost.host
      (mkInput "2024-01-01T10:00" "2024-01-02T10:00" 10 38 0 false)
      = Normal (Some r) /\
    status (phototherapy r) <> NA /\
    status (exchangeTransfusion r) <> NA /\
    (35 <= aogDecimalOf 38 0 ->
     status (phototherapy r) <> WITHIN /\
     status (exchangeTransfusion r) <> WITHIN /\
     (exists n, threshold (phototherapy r) = TNumber n) /\
     (exists n, threshold (exchangeTransfusion r) = TNumber n)).
Proof.
  eexists. split; [vm_compute; reflexivity|].
  apply (statuses_produced Part000.calculateBilirubinRisk ReferenceHost.host
           (or_intror (or_introl eq_refl))
           (mkInput "2024-01-01T10:00" "2024-01-02T10:00" 10 38 0 false)).
  vm_compute. reflexivity.
Defined.

(** ** The Maisels path (under 35 weeks) *)

Lemma maiselsKeyOf_mono (younger older : Q) :
  younger <= older ->
  (bandRank (maiselsKeyOf younger) <= bandRank (maiselsKeyOf older))%nat.
Proof.
  intros H. unfold maiselsKeyOf.
  destruct (younger <? 28) eqn:A1, (younger <? 30) eqn:A2,
           (younger <? 32) eqn:A3, (younger <? 34) eqn:A4;
    destruct (older <? 28) eqn:B1, (older <? 30) eqn:B2,
             (older <? 32) eqn:B3, (older <? 34) eqn:B4;
    num_prop; cbn [bandRank]; try lia; exfalso; lra.
Qed.

(** X9.  The engine of src/unnamed/part_001 under 35 weeks: the zone is N/A, the
    band is chosen by the gestational age ( < 28, < 30, < 32, < 34, else),
    each threshold is the band's one number, and the status is ABOVE from
    that number on and BELOW under it. *)
Theorem maisels_path_part001
        (host : Host) (input : CalculationInput) (r : CalculationResult) :
  Part001.calculateBilirubinRisk host input = Normal (Some r) ->
  aogDecimalOf (gestationalWeeks input) (gestationalDays input) < 35 ->
  bhutaniZone r = NotApplicable /\
  exists pl dvet : Q,
    let aog := aogDecimalOf (gestationalWeeks input) (gestationalDays input) in
    (aog < 28 /\ pl = 6 /\ dvet = 14 \/
     28 <= aog /\ aog < 30 /\ pl = 8 /\ dvet = 14 \/
     30 <= aog /\ aog < 32 /\ pl = 10 /\ dvet = 16 \/
     32 <= aog /\ aog < 34 /\ pl = 12 /\ dvet = 18 \/
     34 <= aog /\ pl = 14 /\ dvet = 19) /\
    phototherapy r =
      {| status := if tcbValue input >=? pl then ABOVE else BELOW;
         threshold := TNumber pl |} /\
    exchangeTransfusion r =
      {| status := if tcbValue input >=? dvet then ABOVE else BELOW;
         threshold := TNumber dvet |}.
Proof.
  intros H Hage. rewrite Part001_shape in H. apply calculateWith_inv in H.
  destruct H as (b & m & zone & therapy & _ & Hz & Ht & _ & _ & -> & -> & ->).
  pose proof Hage as Hage'.
  apply geb_false_iff in Hage. rewrite Hage in Ht. injection Ht as <-.
  apply ltb_true_iff in Hage'. rewrite Hage' in Hz. injection Hz as <-.
  split; [reflexivity|].
  unfold Part001.getMaiselsThresholds.
  cbn [th_phototherapy th_exchangeTransfusion].
  set (aog := aogDecimalOf (gestationalWeeks input) (gestationalDays input)).
  exists (Part001.pl (Part001.maiselsData (maiselsKeyOf aog))),
         (Part001.dvet (Part001.maiselsData (maiselsKeyOf aog))).
  cbv zeta. split; [|split; reflexivity].
  unfold maiselsKeyOf.
  destruct (aog <? 28) eqn:C28; [num_prop; left; repeat split; assumption|].
  destruct (aog <? 30) eqn:C30;
    [num_prop; right; left; repeat split; assumption|].
  destruct (aog <? 32) eqn:C32;
    [num_prop; right; right; left; repeat split; assumption|].
  destruct (aog <? 34) eqn:C34;
    [num_prop; right; right; right; left; repeat split; assumption|].
  num_prop; right; right; right; right; repeat split; assumption.
Qed.

(** X10.  The engine of src/unnamed/part_000 under 35 weeks: the zone is N/A, the
    band is chosen the same way, each threshold is the text "min-max" of
    the band's range, and the status is BELOW under min, ABOVE over max and
    WITHIN on the closed range. *)
Theorem maisels_path_part000
        (host : Host) (input : CalculationInput) (r : CalculationResult) :
  Part000.calculateBilirubinRisk host input = Normal (Some r) ->
  aogDecimalOf (gestationalWeeks input) (gestationalDays input) < 35 ->
  bhutaniZone r = NotApplicable /\
  exists plMin plMax dvetMin dvetMax : Z,
    let aog := aogDecimalOf (gestationalWeeks input) (gestationalDays input) in
    let value := tcbValue input in
    (aog < 28 /\ (plMin, plMax, dvetMin, dvetMax) = (5, 6, 11, 14)%Z \/
     28 <= aog /\ aog < 30 /\ (plMin, plMax, dvetMin, dvetMax) = (6, 8, 12, 14)%Z \/
     30 <= aog /\ aog < 32 /\ (plMin, plMax, dvetMin, dvetMax) = (8, 10, 13, 16)%Z \/
     32 <= aog /\ aog < 34 /\ (plMin, plMax, dvetMin, dvetMax) = (10, 12, 15, 18)%Z \/
     34 <= aog /\ (plMin, plMax, dvetMin, dvetMax) = (12, 14, 17, 19)%Z) /\
    threshold (phototherapy r)
      = TString (Number_toString plMin ++ "-" ++ Number_toString plMax) /\
    threshold (exchangeTransfusion r)
      = TString (Number_toString dvetMin ++ "-" ++ Number_toString dvetMax) /\
    (value < inject_Z plMin -> status (phototherapy r) = BELOW) /\
    (inject_Z plMax < value -> status (phototherapy r) = ABOVE) /\
    (inject_Z plMin <= value -> value <= inject_Z plMax ->
       status (phototherapy r) = WITHIN) /\
    (value < inject_Z dvetMin -> status (exchangeTransfusion r) = BELOW) /\
    (inject_Z dvetMax < value -> status (exchangeTransfusion r) = ABOVE) /\
    (inject_Z dvetMin <= value -> value <= inject_Z dvetMax ->
       status (exchangeTransfusion r) = WITHIN).
Proof.
  intros H Hage. rewrite Part000_shape in H. apply calculateWith_inv in H.
  destruct H as (b & m & zone & therapy & _ & Hz & Ht & _ & _ & -> & -> & ->).
  pose proof Hage as Hage'.
  apply geb_false_iff in Hage. rewrite Hage in Ht. injection Ht as <-.
  apply ltb_true_iff in Hage'. rewrite Hage' in Hz. injection Hz as <-.
  split; [reflexivity|].
  set (aog := aogDecimalOf (gestationalWeeks input) (gestationalDays input)).
  destruct (Part000_getMaiselsThresholds_spec aog (tcbValue input))
    as (plMin & plMax & dvetMin & dvetMax & Hband & Hrest).
  exists plMin, plMax, dvetMin, dvetMax. cbv zeta.
  split; [|exact Hrest].
  revert Hband. unfold maiselsKeyOf.
  destruct (aog <? 28) eqn:C28;
    [intros [= <- <- <- <-]; num_prop; left; repeat split; assumption|].
  destruct (aog <? 30) eqn:C30;
    [intros [= <- <- <- <-]; num_prop; right; left; repeat split; assumption|].
  destruct (aog <? 32) eqn:C32;
    [intros [= <- <- <- <-]; num_prop; right; right; left;
     repeat split; assumption|].
  destruct (aog <? 34) eqn:C34;
    [intros [= <- <- <- <-]; num_prop; right; right; right; left;
     repeat split; assumption|].
  intros [= <- <- <- <-]; num_prop; right; right; right; right;
    repeat split; assumption.
Qed.

(** X11.  For a less mature baby the Maisels thresholds are never higher, in
    either copy: a value that is ABOVE at the older age is ABOVE at the
    younger one, and (part_000) a value that is BELOW at the younger age is
    BELOW at the older one. *)
Theorem maisels_thresholds_rise_with_gestation (younger older tcb : Q) :
  younger <= older ->
  (status (th_phototherapy (Part001.getMaiselsThresholds older tcb)) = ABOVE ->
   status (th_phototherapy (Part001.getMaiselsThresholds younger tcb)) = ABOVE) /\
  (status (th_exchangeTransfusion (Part001.getMaiselsThresholds older tcb)) = ABOVE ->
   status (th_exchangeTransfusion (Part001.getMaiselsThresholds younger tcb)) = ABOVE) /\
  (status (th_phototherapy (Part000.getMaiselsThresholds older tcb)) = ABOVE ->
   status (th_phototherapy (Part000.getMaiselsThresholds younger tcb)) = ABOVE) /\
  (status (th_exchangeTransfusion (Part000.getMaiselsThresholds older tcb)) = ABOVE ->
   status (th_exchangeTransfusion (Part000.getMaiselsThresholds younger tcb)) = ABOVE) /\
  (status (th_phototherapy (Part000.getMaiselsThresholds younger tcb)) = BELOW ->
   status (th_phototherapy (Part000.getMaiselsThresholds older tcb)) = BELOW) /\
  (status (th_exchangeTransfusion (Part000.getMaiselsThresholds younger tcb)) = BELOW ->
   status (th_exchangeTransfusion (Part000.getMaiselsThresholds older tcb)) = BELOW).
Proof.
  intros H. pose proof (maiselsKeyOf_mono younger older H) as Hrank.
  unfold Part001.getMaiselsThresholds, Part000.getMaiselsThresholds.
  destruct (maiselsKeyOf younger), (maiselsKeyOf older);
    cbn [bandRank] in Hrank; try lia; clear Hrank;
    cbn [Part001.maiselsData Part000.maiselsData Part001.pl Part001.dvet
         Part000.pl Part000.dvet th_phototherapy th_exchangeTransfusion status];
    unfold Part000.getStatus;
    repeat split;
    repeat match goal with
           | |- context [if ?c then _ else _] => destruct c eqn:?
           end;
    try reflexivity; try discriminate; intros _; exfalso; num_prop;
    unfold inject_Z in *; lra.
Qed.

Lemma maisels_path_part001_witness :
  exists r,
    Part001.calculateBilirubinRisk ReferenceHost.host
      (mkInput "2024-01-01T10:00" "2024-01-02T10:00" 8 29 3 false)
      = Normal (Some r) /\
    aogDecimalOf 29 3 < 35 /\
    bhutaniZone r = NotApplicable /\
    phototherapy r = {| status := ABOVE; threshold := TNumber 8 |} /\
    exchangeTransfusion r = {| status := BELOW; threshold := TNumber 14 |}.
Proof.
  eexists. split; [vm_compute; reflexivity|].
  split; [vm_compute; reflexivity|].
  destruct (maisels_path_part001 ReferenceHost.host
              (mkInput "2024-01-01T10:00" "2024-01-02T10:00" 8 29 3 false)
              _ eq_refl eq_refl) as (Hz & _).
  split; [exact Hz|]. split; reflexivity.
Defined.

Lemma maisels_path_part000_witness :
  exists r,
    Part000.calculateBilirubinRisk ReferenceHost.host
      (mkInput "2024-01-01T10:00" "2024-01-02T10:00" 8 29 3 false)
      = Normal (Some r) /\
    aogDecimalOf 29 3 < 35 /\
    bhutaniZone r = NotApplicable /\
    phototherapy r = {| status := WITHIN; threshold := TString "6-8" |} /\
    exchangeTransfusion r = {| status := BELOW; threshold := TString "12-14" |}.
Proof.
  eexists. split; [vm_compute; reflexivity|].
  split; [vm_compute; reflexivity|].
  destruct (maisels_path_part000 ReferenceHost.host
              (mkInput "2024-01-01T10:00" "2024-01-02T10:00" 8 29 3 false)
              _ eq_refl eq_refl) as (Hz & _).
  split; [exact Hz|]. split; reflexivity.
Defined.

Lemma maisels_thresholds_rise_with_gestation_witness :
  27 <= 33 /\
  status (th_phototherapy (Part000.getMaiselsThresholds 33 13)) = ABOVE /\
  status (th_phototherapy (Part000.getMaiselsThresholds 27 13)) = ABOVE.
Proof.
  split; [vm_compute; discriminate|]. split; [vm_compute; reflexivity|].
  apply (maisels_thresholds_rise_with_gestation 27 33 13).
  - vm_compute; discriminate.
  - vm_compute; reflexivity.
Defined.

(** ** formatDateTime on the shapes the form produces *)

Lemma replaceAllSlash_app (a b : string) :
  replaceAllSlash (a ++ b) = (replaceAllSlash a ++ replaceAllSlash b)%string.
Proof. induction a as [|c a IH]; simpl; [reflexivity|]. rewrite IH. reflexivity. Qed.

Lemma isWhiteSpace_replaced (c : ascii) :
  isWhiteSpace (if Ascii.eqb c "/" then "-"%char else c) = isWhiteSpace c.
Proof.
  destruct (Ascii.eqb c "/") eqn:E; [|reflexivity].
  apply Ascii.eqb_eq in E. subst c. reflexivity.
Qed.

Lemma noWhiteSpace_replaceAllSlash (s : string) :
  noWhiteSpace (replaceAllSlash s) = noWhiteSpace s.
Proof.
  induction s as [|c s IH]; simpl; [reflexivity|].
  rewrite isWhiteSpace_replaced, IH. reflexivity.
Qed.

Lemma allWhiteSpace_replaceAllSlash (w : string) :
  allWhiteSpace w = true -> replaceAllSlash w = w.
Proof.
  induction w as [|c w IH]; simpl; [reflexivity|].
  intros H. apply andb_prop in H. destruct H as (Hc & Hw).
  rewrite (IH Hw).
  destruct (Ascii.eqb c "/") eqn:E; [|reflexivity].
  apply Ascii.eqb_eq in E. subst c. discriminate.
Qed.

Lemma replaceFirstSeparator_skip (d s : string) :
  noWhiteSpace d = true ->
  replaceFirstSeparator (d ++ s) = (d ++ replaceFirstSeparator s)%string.
Proof.
  induction d as [|c d IH]; simpl; [reflexivity|].
  intros H. apply andb_prop in H. destruct H as (Hc & Hd).
  apply negb_true_iff in Hc. rewrite Hc, (IH Hd). reflexivity.
Qed.

Lemma replaceFirstSeparator_clean (d : string) :
  noWhiteSpace d = true -> replaceFirstSeparator d = d.
Proof.
  induction d as [|c d IH]; simpl; [reflexivity|].
  intros H. apply andb_prop in H. destruct H as (Hc & Hd).
  apply negb_true_iff in Hc. rewrite Hc, (IH Hd). reflexivity.
Qed.

Lemma skipWhiteSpace_app (w s : string) :
  allWhiteSpace w = true -> skipWhiteSpace (w ++ s) = skipWhiteSpace s.
Proof.
  induction w as [|c w IH]; simpl; [reflexivity|].
  intros H. apply andb_prop in H. destruct H as (Hc & Hw).
  rewrite Hc. exact (IH Hw).
Qed.

Lemma skipWhiteSpace_clean (t s : string) :
  noWhiteSpace t = true -> (t = EmptyString -> s = EmptyString) ->
  skipWhiteSpace (t ++ s) = (t ++ s)%string.
Proof.
  destruct t as [|c t]; simpl.
  - intros _ H. rewrite (H eq_refl). reflexivity.
  - intros H _. apply andb_prop in H. destruct H as (Hc & _).
    apply negb_true_iff in Hc. rewrite Hc. reflexivity.
Qed.

Lemma matchSeparator_run (w s : string) :
  allWhiteSpace w = true -> w <> EmptyString ->
  matchSeparator (w ++ s) =
    match skipWhiteSpace s with
    | String "-"%char (String c2 rest2) =>
        if isWhiteSpace c2 then Some (skipWhiteSpace rest2)
        else Some (skipWhiteSpace s)
    | _ => Some (skipWhiteSpace s)
    end.
Proof.
  destruct w as [|c w]; [congruence|]. simpl.
  intros H _. apply andb_prop in H. destruct H as (Hc & Hw).
  rewrite Hc, (skipWhiteSpace_app w s Hw). reflexivity.
Qed.

Lemma separator_alone (after : string) (other : string -> option string) :
  (forall c rest, after = String "-"%char (String c rest) ->
                  isWhiteSpace c = false) ->
  match after with
  | String "-"%char (String c2 rest2) =>
      if isWhiteSpace c2 then other rest2 else Some after
  | _ => Some after
  end = Some after.
Proof.
  intros H. destruct after as [|a [|c2 rest2]];
    [reflexivity|destruct a as [[] [] [] [] [] [] [] []]; reflexivity|].
  destruct (Ascii.eqb a "-") eqn:E.
  - apply Ascii.eqb_eq in E. subst a. rewrite (H c2 rest2 eq_refl). reflexivity.
  - destruct a as [[] [] [] [] [] [] [] []]; try reflexivity. discriminate.
Qed.

Lemma matchSeparator_alone (w s : string) :
  allWhiteSpace w = true -> w <> EmptyString ->
  skipWhiteSpace s = s ->
  (forall c rest, s = String "-"%char (String c rest) ->
                  isWhiteSpace c = false) ->
  matchSeparator (w ++ s) = Some s.
Proof.
  intros Hw Hne Hs Hdash.
  rewrite (matchSeparator_run w s Hw Hne), Hs.
  exact (separator_alone s (fun rest2 => Some (skipWhiteSpace rest2)) Hdash).
Qed.

Lemma matchSeparator_dash (w1 w2 s : string) :
  allWhiteSpace w1 = true -> w1 <> EmptyString ->
  allWhiteSpace w2 = true -> w2 <> EmptyString ->
  skipWhiteSpace s = s ->
  matchSeparator (w1 ++ "-" ++ w2 ++ s) = Some s.
Proof.
  intros Hw1 Hne1 Hw2 Hne2 Hs.
  rewrite (matchSeparator_run w1 _ Hw1 Hne1).
  destruct w2 as [|c2 w2]; [congruence|].
  simpl in Hw2. apply andb_prop in Hw2. destruct Hw2 as (Hc2 & Hw2).
  cbn [append skipWhiteSpace]. change (isWhiteSpace "-") with false.
  cbv iota. rewrite Hc2, (skipWhiteSpace_app w2 s Hw2), Hs. reflexivity.
Qed.

Lemma replaceFirstSeparator_match (w s after : string) :
  w <> EmptyString -> matchSeparator (w ++ s) = Some after ->
  replaceFirstSeparator (w ++ s) = String "T"%char after.
Proof.
  intros Hne E. destruct w as [|c w]; [congruence|].
  change (String c w ++ s)%string with (String c (w ++ s)) in *.
  cbn [replaceFirstSeparator]. rewrite E. reflexivity.
Qed.

Lemma replaceFirstSeparator_run (w s : string) :
  allWhiteSpace w = true -> w <> EmptyString ->
  skipWhiteSpace s = s ->
  (forall c rest, s = String "-"%char (String c rest) ->
                  isWhiteSpace c = false) ->
  replaceFirstSeparator (w ++ s) = String "T"%char s.
Proof.
  intros Hw Hne Hs Hdash. apply replaceFirstSeparator_match; [exact Hne|].
  apply matchSeparator_alone; assumption.
Qed.

Lemma replaceFirstSeparator_dash (w1 w2 s : string) :
  allWhiteSpace w1 = true -> w1 <> EmptyString ->
  allWhiteSpace w2 = true -> w2 <> EmptyString ->
  skipWhiteSpace s = s ->
  replaceFirstSeparator (w1 ++ "-" ++ w2 ++ s) = String "T"%char s.
Proof.
  intros Hw1 Hne1 Hw2 Hne2 Hs. apply replaceFirstSeparator_match; [exact Hne1|].
  apply matchSeparator_dash; assumption.
Qed.

(** X12.  For a date [d] and a time [t] without white space, joined by white
    space, by a dash between white space, or by nothing the engine has to
    touch, [formatDateTime] gives the date with its slashes turned into
    dashes, a [T], and the time; a text without white space only has its
    slashes replaced; and only the first run of white space is replaced. *)
Theorem formatDateTime_separators (d t w1 w2 : string) :
  noWhiteSpace d = true -> noWhiteSpace t = true ->
  allWhiteSpace w1 = true -> w1 <> EmptyString ->
  allWhiteSpace w2 = true -> w2 <> EmptyString ->
  formatDateTime (d ++ w1 ++ "-" ++ w2 ++ t)
    = (replaceAllSlash d ++ "T" ++ replaceAllSlash t)%string /\
  formatDateTime (d ++ w1 ++ t)
    = (replaceAllSlash d ++ "T" ++ replaceAllSlash t)%string /\
  formatDateTime (d ++ "T" ++ t)
    = (replaceAllSlash d ++ "T" ++ replaceAllSlash t)%string /\
  formatDateTime d = replaceAllSlash d /\
  (forall u : string,
     t <> EmptyString -> replaceAllSlash t <> "-"%string ->
     formatDateTime (d ++ w1 ++ t ++ w2 ++ u)
       = (replaceAllSlash d ++ "T" ++ replaceAllSlash t ++ w2
          ++ replaceAllSlash u)%string).
Proof.
  intros Hd Ht Hw1 Hne1 Hw2 Hne2.
  assert (Hd' : noWhiteSpace (replaceAllSlash d) = true)
    by (rewrite noWhiteSpace_replaceAllSlash; exact Hd).
  assert (Ht' : noWhiteSpace (replaceAllSlash t) = true)
    by (rewrite noWhiteSpace_replaceAllSlash; exact Ht).
  assert (Hclean : skipWhiteSpace (replaceAllSlash t) = replaceAllSlash t).
  { destruct (replaceAllSlash t) as [|c t']; [reflexivity|].
    simpl in Ht'. apply andb_prop in Ht'. destruct Ht' as (Hc & _).
    apply negb_true_iff in Hc. simpl. rewrite Hc. reflexivity. }
  unfold formatDateTime. repeat split.
  - rewrite !replaceAllSlash_app.
    rewrite (allWhiteSpace_replaceAllSlash w1 Hw1),
            (allWhiteSpace_replaceAllSlash w2 Hw2).
    rewrite (replaceFirstSeparator_skip _ _ Hd').
    change (replaceAllSlash "-") with "-"%string.
    rewrite (replaceFirstSeparator_dash w1 w2 _ Hw1 Hne1 Hw2 Hne2 Hclean).
    reflexivity.
  - rewrite !replaceAllSlash_app.
    rewrite (allWhiteSpace_replaceAllSlash w1 Hw1).
    rewrite (replaceFirstSeparator_skip _ _ Hd').
    rewrite (replaceFirstSeparator_run w1 _ Hw1 Hne1 Hclean); [reflexivity|].
    intros c rest E. rewrite E in Ht'. simpl in Ht'.
    apply andb_prop in Ht'. destruct Ht' as (Hc & _).
    apply negb_true_iff in Hc. exact Hc.
  - rewrite !replaceAllSlash_app.
    change (replaceAllSlash "T") with "T"%string.
    rewrite (replaceFirstSeparator_skip _ _ Hd').
    change ("T" ++ replaceAllSlash t)%string
      with (String "T"%char (replaceAllSlash t)).
    cbn [replaceFirstSeparator matchSeparator].
    change (isWhiteSpace "T") with false. cbv iota.
    rewrite (replaceFirstSeparator_clean _ Ht'). reflexivity.
  - apply replaceFirstSeparator_clean. exact Hd'.
  - intros u Hne Hnd.
    rewrite !replaceAllSlash_app.
    rewrite (allWhiteSpace_replaceAllSlash w1 Hw1),
            (allWhiteSpace_replaceAllSlash w2 Hw2).
    rewrite (replaceFirstSeparator_skip _ _ Hd').
    rewrite (replaceFirstSeparator_run w1 _ Hw1 Hne1); [reflexivity| |].
    + apply skipWhiteSpace_clean; [exact Ht'|].
      intros E. destruct t; [congruence|discriminate].
    + intros c rest E.
      destruct (replaceAllSlash t) as [|a [|c' rest']] eqn:Et.
      * destruct t; [congruence|discriminate].
      * simpl in E. injection E as -> E. congruence.
      * simpl in E. injection E as _ -> _. simpl in Ht'.
        apply andb_prop in Ht'. destruct Ht' as (_ & Ht').
        apply andb_prop in Ht'. destruct Ht' as (Hc & _).
        apply negb_true_iff in Hc. exact Hc.
Qed.

Lemma formatDateTime_separators_witness :
  formatDateTime "2024/01/01 - 10:00" = "2024-01-01T10:00"%string /\
  formatDateTime "2024/01/01 10:00" = "2024-01-01T10:00"%string.
Proof.
  destruct (formatDateTime_separators "2024/01/01" "10:00" " " " "
              eq_refl eq_refl eq_refl ltac:(discriminate)
              eq_refl ltac:(discriminate)) as (A & B & _).
  split; [exact A | exact B].
Defined.

(** ** src/App.tsx: handleSubmit *)

Lemma engines_shape (engine : Engine) :
  In engine engines ->
  exists maisels, forall host input,
    engine host input = calculateWith maisels host input.
Proof.
  intros [<-|[<-|[]]].
  - exists Part001.getMaiselsThresholds. exact Part001_shape.
  - exists Part000.getMaiselsThresholds. exact Part000_shape.
Qed.

Lemma engine_outcome (engine : Engine) (host : Host) (input : CalculationInput) :
  In engine engines ->
  (exists birthDate measurementDate r,
     acceptedAt host input birthDate measurementDate /\
     engine host input = Normal (Some r)) \/
  (engine host input = Normal None /\
   (birthDateTime input = EmptyString \/
    measurementDateTime input = EmptyString \/
    tcbValue input == 0 \/
    gestationalWeeks input = 0%Z \/
    Date_parse host (formatDateTime (birthDateTime input)) = None \/
    Date_parse host (formatDateTime (measurementDateTime input)) = None \/
    exists birthDate measurementDate,
      Date_parse host (formatDateTime (birthDateTime input)) = Some birthDate /\
      Date_parse host (formatDateTime (measurementDateTime input))
        = Some measurementDate /\
      (measurementDate <= birthDate)%Z)).
Proof.
  intros Hin. destruct (engines_shape engine Hin) as (maisels & Hshape).
  rewrite Hshape.
  destruct (acceptance_cases host input) as [(b & m & Hacc)|(Hrej & Hwhy)].
  - left. destruct (calculateWith_accepts maisels host input b m Hacc)
      as (zone & therapy & _ & _ & E).
    exists b, m. eexists. split; [exact Hacc|exact E].
  - right. split; [|exact Hwhy]. apply calculateWith_rejects. exact Hrej.
Qed.

Lemma validated_unique (conv : Conversions) (input : App.FormInput)
      (weeks days : Z) (tcb : Q) (weeks' days' : Z) (tcb' : Q) :
  validated conv input weeks days tcb ->
  validated conv input weeks' days' tcb' ->
  weeks = weeks' /\ days = days' /\ tcb = tcb'.
Proof.
  intros (A & _ & B & _ & C & _) (A' & _ & B' & _ & C' & _).
  rewrite A in A'. rewrite B in B'. rewrite C in C'.
  injection A' as ->. injection B' as ->. injection C' as ->. auto.
Qed.

Lemma handleSubmit_cases (conv : Conversions) (engine : Engine) (host : Host)
      (st : App.State) :
  let input := App.st_input st in
  ((forall weeks days tcb, ~ validated conv input weeks days tcb) /\
   exists message,
     In message [App.weeksMessage; App.daysMessage; App.tcbMessage] /\
     App.handleSubmit conv engine host st =
       Normal (App.mkState input (App.st_result st) message)) \/
  (exists weeks days tcb,
     validated conv input weeks days tcb /\
     App.handleSubmit conv engine host st =
       (calculationResult <-
          engine host (calculationInputOf input weeks days tcb) ;;
        match calculationResult with
        | Some r => Normal (App.mkState input (Some r) EmptyString)
        | None =>
            Normal (App.mkState input (App.st_result st)
                                App.calculationMessage)
        end)).
Proof.
  intros input. unfold App.handleSubmit. fold input.
  unfold validated.
  destruct (parseInt conv (App.form_gestationalWeeks input)) as [weeks|] eqn:Ew.
  2:{ left. split; [intros w d t (A & _); discriminate|].
      eexists. split; [left; reflexivity|reflexivity]. }
  destruct ((weeks <? 28) || (weeks >? 42))%Z eqn:Cw.
  { left. split.
    - intros w d t (A & B & _). injection A as <-.
      apply orb_true_iff in Cw. destruct Cw as [C|C]; lia.
    - eexists. split; [left; reflexivity|reflexivity]. }
  destruct (App.gestationalDaysOf conv input) as [days|] eqn:Ed.
  2:{ left. split; [intros w d t (_ & _ & A & _); discriminate|].
      eexists. split; [right; left; reflexivity|reflexivity]. }
  destruct ((days <? 0) || (days >? 6))%Z eqn:Cd.
  { left. split.
    - intros w d t (_ & _ & A & B & _). injection A as <-.
      apply orb_true_iff in Cd. destruct Cd as [C|C]; lia.
    - eexists. split; [right; left; reflexivity|reflexivity]. }
  destruct (parseFloat conv (App.form_tcbValue input)) as [tcb|] eqn:Et.
  2:{ left. split; [intros w d t (_ & _ & _ & _ & A & _); discriminate|].
      eexists. split; [right; right; left; reflexivity|reflexivity]. }
  destruct (tcb <=? 0) eqn:Ct.
  { left. split.
    - intros w d t (_ & _ & _ & _ & A & B). injection A as <-.
      num_prop. lra.
    - eexists. split; [right; right; left; reflexivity|reflexivity]. }
  right. exists weeks, days, tcb. apply orb_false_iff in Cw, Cd.
  destruct Cw as (Cw1 & Cw2). destruct Cd as (Cd1 & Cd2). num_prop.
  split; [repeat split; try reflexivity; try lia; exact Ct|].
  reflexivity.
Qed.

Section FormSubmission.

Variable conv : Conversions.
Variable engine : Engine.
Variable host : Host.
Hypothesis engine_is_a_copy : In engine engines.

(** X13.  What [handleSubmit] leaves behind, in full.  It never throws and never
    changes the form's texts.  Either the three checks pass and the engine
    accepts: the new result is shown and no error.  Or a check fails: one of
    the three messages is shown, and the result shown before stays.  Or the
    checks pass and the engine returns null, which then is due to the two
    date texts alone (one is empty or not a date, or the measurement is not
    after the birth): the fourth message is shown, and the result shown
    before stays. *)
Theorem handleSubmit_outcomes (st : App.State) :
  let input := App.st_input st in
  exists st',
    App.handleSubmit conv engine host st = Normal st' /\
    App.st_input st' = input /\
    ((exists weeks days tcb r birthDate measurementDate,
        validated conv input weeks days tcb /\
        Date_parse host (formatDateTime (App.form_birthDateTime input))
          = Some birthDate /\
        Date_parse host (formatDateTime (App.form_measurementDateTime input))
          = Some measurementDate /\
        (birthDate < measurementDate)%Z /\
        engine host (calculationInputOf input weeks days tcb)
          = Normal (Some r) /\
        App.st_result st' = Some r /\
        App.st_error st' = EmptyString) \/
     ((forall weeks days tcb, ~ validated conv input weeks days tcb) /\
      App.st_result st' = App.st_result st /\
      In (App.st_error st')
         [App.weeksMessage; App.daysMessage; App.tcbMessage]) \/
     (exists weeks days tcb,
        validated conv input weeks days tcb /\
        (App.form_birthDateTime input = EmptyString \/
         App.form_measurementDateTime input = EmptyString \/
         Date_parse host (formatDateTime (App.form_birthDateTime input))
           = None \/
         Date_parse host (formatDateTime (App.form_measurementDateTime input))
           = None \/
         exists birthDate measurementDate,
           Date_parse host (formatDateTime (App.form_birthDateTime input))
             = Some birthDate /\
           Date_parse host
             (formatDateTime (App.form_measurementDateTime input))
             = Some measurementDate /\
           (measurementDate <= birthDate)%Z) /\
        engine host (calculationInputOf input weeks days tcb) = Normal None /\
        App.st_result st' = App.st_result st /\
        App.st_error st' = App.calculationMessage)).
Proof.
  intros input. subst input.
  pose proof (handleSubmit_cases conv engine host st) as Hcases.
  cbv zeta in Hcases.
  destruct Hcases
    as [(Hnot & message & Hmsg & E)|(weeks & days & tcb & Hval & E)].
  - eexists. split; [exact E|]. split; [reflexivity|].
    right. left. split; [exact Hnot|]. split; [reflexivity|exact Hmsg].
  - rewrite E.
    destruct (engine_outcome engine host
                (calculationInputOf (App.st_input st) weeks days tcb)
                engine_is_a_copy)
      as [(b & m & r & Hacc & Er)|(Er & Hwhy)]; rewrite Er; cbn [bind].
    + eexists. split; [reflexivity|]. split; [reflexivity|].
      left. exists weeks, days, tcb, r, b, m.
      destruct Hacc as (_ & _ & _ & _ & Pb & Pm & Hlt).
      repeat split; try assumption; apply Hval.
    + eexists. split; [reflexivity|]. split; [reflexivity|].
      right. right. exists weeks, days, tcb. split; [exact Hval|].
      split; [|split; [exact Er|split; reflexivity]].
      destruct Hval as (_ & Hw & _ & _ & _ & Ht).
      unfold calculationInputOf in Hwhy.
      cbn [birthDateTime measurementDateTime tcbValue gestationalWeeks]
        in Hwhy.
      destruct Hwhy as [H|[H|[H|[H|[H|[H|H]]]]]].
      * left. exact H.
      * right. left. exact H.
      * exfalso. rewrite H in Ht. apply (Qlt_irrefl 0). exact Ht.
      * exfalso. lia.
      * right. right. left. exact H.
      * right. right. right. left. exact H.
      * right. right. right. right. exact H.
Qed.

(** X14.  A result that [handleSubmit] shows was computed for a gestational age
    of at least 28 and under 43 weeks and a positive TcB value: the first
    Maisels band (under 28 weeks) is never used through the form. *)
Theorem form_reaches_no_band_under_28 (st st' : App.State) :
  App.handleSubmit conv engine host st = Normal st' ->
  App.st_error st' = EmptyString ->
  exists weeks days tcb r,
    validated conv (App.st_input st) weeks days tcb /\
    App.st_result st' = Some r /\
    engine host (calculationInputOf (App.st_input st) weeks days tcb)
      = Normal (Some r) /\
    28 <= aogDecimalOf weeks days /\
    aogDecimalOf weeks days < 43 /\
    maiselsKeyOf (aogDecimalOf weeks days) <> key28.
Proof.
  intros H Herr.
  pose proof (handleSubmit_cases conv engine host st) as Hcases.
  cbv zeta in Hcases.
  destruct Hcases
    as [(Hnot & message & Hmsg & E)|(weeks & days & tcb & Hval & E)];
    rewrite E in H.
  - injection H as <-. cbn [App.st_error] in Herr. subst message.
    exfalso. destruct Hmsg as [M|[M|[M|[]]]]; discriminate.
  - destruct (engine_outcome engine host
                (calculationInputOf (App.st_input st) weeks days tcb)
                engine_is_a_copy)
      as [(b & m & r & Hacc & Er)|(Er & Hwhy)]; rewrite Er in H;
      cbn [bind] in H; injection H as <-.
    2:{ discriminate. }
    exists weeks, days, tcb, r. split; [exact Hval|].
    split; [reflexivity|]. split; [exact Er|].
    destruct Hval as (_ & Hw & _ & Hd & _).
    assert (H28 : 28 <= aogDecimalOf weeks days /\ aogDecimalOf weeks days < 43).
    { unfold aogDecimalOf.
      assert (A : 28 <= inject_Z weeks)
        by (change 28 with (inject_Z 28); rewrite <- Zle_Qle; lia).
      assert (B : inject_Z weeks <= 42)
        by (change 42 with (inject_Z 42); rewrite <- Zle_Qle; lia).
      assert (C : 0 <= inject_Z days)
        by (change 0 with (inject_Z 0); rewrite <- Zle_Qle; lia).
      assert (D : inject_Z days <= 6)
        by (change 6 with (inject_Z 6); rewrite <- Zle_Qle; lia).
      const_div. split; lra. }
    destruct H28 as (Hlo & Hhi). split; [exact Hlo|]. split; [exact Hhi|].
    unfold maiselsKeyOf.
    destruct (aogDecimalOf weeks days <? 28) eqn:C; [num_prop; lra|].
    destruct (aogDecimalOf weeks days <? 30), (aogDecimalOf weeks days <? 32),
             (aogDecimalOf weeks days <? 34); discriminate.
Qed.

End FormSubmission.

Lemma handleSubmit_outcomes_witness :
  exists st',
    App.handleSubmit ReferenceConversions.conv Part001.calculateBilirubinRisk
      ReferenceHost.host formExample = Normal st' /\
    App.st_input st' = App.st_input formExample.
Proof.
  destruct (handleSubmit_outcomes ReferenceConversions.conv
              Part001.calculateBilirubinRisk ReferenceHost.host
              (or_introl eq_refl) formExample) as (st' & E & I & _).
  exists st'. split; [exact E|exact I].
Defined.

Lemma form_reaches_no_band_under_28_witness :
  exists st',
    App.handleSubmit ReferenceConversions.conv Part000.calculateBilirubinRisk
      ReferenceHost.host formExample = Normal st' /\
    App.st_error st' = EmptyString /\
    exists weeks days tcb r,
      validated ReferenceConversions.conv (App.st_input formExample)
                weeks days tcb /\
      App.st_result st' = Some r /\
      Part000.calculateBilirubinRisk ReferenceHost.host
        (calculationInputOf (App.st_input formExample) weeks days tcb)
        = Normal (Some r) /\
      28 <= aogDecimalOf weeks days /\
      aogDecimalOf weeks days < 43 /\
      maiselsKeyOf (aogDecimalOf weeks days) <> key28.
Proof.
  eexists. split; [vm_compute; reflexivity|]. split; [reflexivity|].
  apply (form_reaches_no_band_under_28 ReferenceConversions.conv
           Part000.calculateBilirubinRisk ReferenceHost.host
           (or_intror (or_introl eq_refl)) formExample);
    [vm_compute; reflexivity|reflexivity].
Defined.

(** ** src/App.tsx: the risk category of the clipboard text *)

(** X15.  The label the clipboard text carries names the pair of AAP curves the
    engine reads for the same weeks, days and risk factors, from 35 weeks
    on; under 35 weeks, where the engine uses the Maisels bands, the label
    is High Risk Neonate whatever the risk factors. *)
Theorem riskCategory_names_the_curves
        (conv : Conversions) (input : App.FormInput) (weeks days : Z) :
  parseInt conv (App.form_gestationalWeeks input) = Some weeks ->
  App.gestationalDaysOf conv input = Some days ->
  let aog := aogDecimalOf weeks days in
  let risk := App.form_hasRiskFactors input in
  (aog < 35 /\ App.riskCategory conv input = "High Risk Neonate"%string) \/
  (35 <= aog /\
   ((App.riskCategory conv input = "Low Risk Neonate"%string /\
     aapCurves aog risk = (aapPlData.lowerRisk, aapDvetData.lowerRisk)) \/
    (App.riskCategory conv input = "Medium Risk Neonate"%string /\
     aapCurves aog risk = (aapPlData.mediumRisk, aapDvetData.mediumRisk)) \/
    (App.riskCategory conv input = "High Risk Neonate"%string /\
     aapCurves aog risk = (aapPlData.higherRisk, aapDvetData.higherRisk)))).
Proof.
  intros Hw Hd aog risk.
  unfold App.riskCategory, App.totalWeeks. rewrite Hw, Hd.
  change (inject_Z weeks + inject_Z days / 7) with aog.
  unfold aapCurves. fold risk.
  destruct (aog >=? 38) eqn:C38.
  - right. num_prop. split; [lra|].
    destruct risk; [right; left|left]; split; reflexivity.
  - destruct (aog >=? 35) eqn:C35.
    + right. num_prop. split; [exact C35|].
      destruct risk; [right; right|right; left]; split; reflexivity.
    + left. num_prop. split; [exact C35|reflexivity].
Qed.

Lemma riskCategory_names_the_curves_witness :
  App.riskCategory ReferenceConversions.conv (App.st_input formExample)
    = "Low Risk Neonate"%string /\
  aapCurves (aogDecimalOf 38 0) false
    = (aapPlData.lowerRisk, aapDvetData.lowerRisk).
Proof.
  destruct (riskCategory_names_the_curves ReferenceConversions.conv
              (App.st_input formExample) 38 0 eq_refl eq_refl)
    as [(_ & E)|(_ & [H|[(E & _)|(E & _)]])];
    [vm_compute in E; discriminate|exact H
    |vm_compute in E; discriminate|vm_compute in E; discriminate].
Defined.

(** ** src/App.tsx: the Now button *)

Lemma string_app_assoc (a b c : string) :
  ((a ++ b) ++ c = a ++ (b ++ c))%string.
Proof. induction a as [|x a IH]; simpl; [reflexivity|]. rewrite IH. reflexivity. Qed.

Lemma plainText_app (a b : string) :
  plainText (a ++ b) = plainText a && plainText b.
Proof.
  induction a as [|x a IH]; simpl; [reflexivity|].
  rewrite IH, andb_assoc. reflexivity.
Qed.

Lemma plainText_noWhiteSpace (s : string) :
  plainText s = true -> noWhiteSpace s = true.
Proof.
  induction s as [|c s IH]; simpl; [reflexivity|].
  intros H. apply andb_prop in H. destruct H as (H & Hs).
  apply andb_prop in H. destruct H as (Hc & _).
  rewrite Hc, (IH Hs). reflexivity.
Qed.

Lemma plainText_replaceAllSlash (s : string) :
  plainText s = true -> replaceAllSlash s = s.
Proof.
  induction s as [|c s IH]; simpl; [reflexivity|].
  intros H. apply andb_prop in H. destruct H as (H & Hs).
  apply andb_prop in H. destruct H as (_ & Hc).
  apply negb_true_iff in Hc. rewrite Hc, (IH Hs). reflexivity.
Qed.

Lemma plainText_uint (d : Decimal.uint) :
  plainText (NilEmpty.string_of_uint d) = true.
Proof. induction d; simpl; try reflexivity; exact IHd. Qed.

Lemma plainText_Number_toString (n : Z) : plainText (Number_toString n) = true.
Proof.
  unfold Number_toString, NilZero.string_of_int, NilZero.string_of_uint.
  destruct (Z.to_int n) as [d|d]; destruct d; try reflexivity;
    try (apply (plainText_uint (_ d))); simpl; apply plainText_uint.
Qed.

Lemma plainText_padStart (s : string) (targetLength : nat) :
  plainText s = true -> plainText (padStart s targetLength "0") = true.
Proof.
  intros H. unfold padStart. rewrite plainText_app, H, andb_true_r.
  induction (targetLength - String.length s)%nat as [|k IH];
    simpl; [reflexivity|exact IH].
Qed.

(** X16.  Whatever the clock says, the text the Now button writes into the
    measurement field is read by the engine as year-month-day, a [T], and
    hours:minutes, the month counted from 1 and each field but the year
    padded to two digits; the button changes nothing else. *)
Theorem formattedDateTime_normalised (now : App.LocalTime) (st : App.State) :
  let st' := App.handleSetCurrentTime now st in
  formatDateTime (App.form_measurementDateTime (App.st_input st'))
  = (Number_toString (App.getFullYear now) ++ "-"
     ++ padStart (Number_toString (App.getMonth now + 1)) 2 "0" ++ "-"
     ++ padStart (Number_toString (App.getDate now)) 2 "0" ++ "T"
     ++ padStart (Number_toString (App.getHours now)) 2 "0" ++ ":"
     ++ padStart (Number_toString (App.getMinutes now)) 2 "0")%string /\
  App.form_birthDateTime (App.st_input st')
    = App.form_birthDateTime (App.st_input st) /\
  App.form_tcbValue (App.st_input st') = App.form_tcbValue (App.st_input st) /\
  App.form_gestationalWeeks (App.st_input st')
    = App.form_gestationalWeeks (App.st_input st) /\
  App.form_gestationalDays (App.st_input st')
    = App.form_gestationalDays (App.st_input st) /\
  App.form_hasRiskFactors (App.st_input st')
    = App.form_hasRiskFactors (App.st_input st) /\
  App.st_result st' = App.st_result st /\
  App.st_error st' = App.st_error st.
Proof.
  cbv zeta. split; [|repeat split].
  cbn [App.handleSetCurrentTime App.st_input App.form_measurementDateTime].
  unfold App.formattedDateTime.
  set (year := Number_toString (App.getFullYear now)).
  set (month := padStart (Number_toString (App.getMonth now + 1)) 2 "0").
  set (day := padStart (Number_toString (App.getDate now)) 2 "0").
  set (hours := padStart (Number_toString (App.getHours now)) 2 "0").
  set (minutes := padStart (Number_toString (App.getMinutes now)) 2 "0").
  assert (Hy : plainText year = true) by apply plainText_Number_toString.
  assert (Hm : plainText month = true)
    by (apply plainText_padStart, plainText_Number_toString).
  assert (Hd : plainText day = true)
    by (apply plainText_padStart, plainText_Number_toString).
  assert (Hh : plainText hours = true)
    by (apply plainText_padStart, plainText_Number_toString).
  assert (Hmi : plainText minutes = true)
    by (apply plainText_padStart, plainText_Number_toString).
  unfold formatDateTime.
  replace (year ++ "/" ++ month ++ "/" ++ day ++ " - " ++ hours ++ ":"
             ++ minutes)%string
    with ((year ++ "/" ++ month ++ "/" ++ day) ++ " " ++ "-" ++ " "
            ++ (hours ++ ":" ++ minutes))%string
    by (rewrite !string_app_assoc; reflexivity).
  assert (Htime : plainText (hours ++ ":" ++ minutes) = true)
    by (rewrite !plainText_app, Hh, Hmi; reflexivity).
  rewrite replaceAllSlash_app.
  change (replaceAllSlash (" " ++ "-" ++ " " ++ (hours ++ ":" ++ minutes)))
    with (" " ++ "-" ++ " " ++ replaceAllSlash (hours ++ ":" ++ minutes))%string.
  rewrite (plainText_replaceAllSlash _ Htime).
  rewrite !replaceAllSlash_app.
  rewrite (plainText_replaceAllSlash _ Hy), (plainText_replaceAllSlash _ Hm),
          (plainText_replaceAllSlash _ Hd).
  change (replaceAllSlash "/") with "-"%string.
  assert (Hdate : noWhiteSpace (year ++ "-" ++ month ++ "-" ++ day) = true).
  { apply plainText_noWhiteSpace.
    rewrite !plainText_app, Hy, Hm, Hd. reflexivity. }
  rewrite (replaceFirstSeparator_skip _ _ Hdate).
  rewrite (replaceFirstSeparator_dash " " " " (hours ++ ":" ++ minutes)
             eq_refl ltac:(discriminate) eq_refl ltac:(discriminate)).
  - rewrite !string_app_assoc. reflexivity.
  - apply plainText_noWhiteSpace in Htime.
    destruct (hours ++ ":" ++ minutes)%string as [|c rest]; [reflexivity|].
    simpl in Htime. apply andb_prop in Htime. destruct Htime as (Hc & _).
    apply negb_true_iff in Hc. simpl. rewrite Hc. reflexivity.
Qed.

(** ** src/App.tsx: the birth date and time of the clipboard text *)

Lemma splitFirst_skip (d s : string) :
  noWhiteSpace d = true ->
  splitFirst (d ++ s) = ((d ++ fst (splitFirst s))%string, snd (splitFirst s)).
Proof.
  induction d as [|c d IH]; simpl.
  - intros _. destruct (splitFirst s); reflexivity.
  - intros H. apply andb_prop in H. destruct H as (Hc & Hd).
    apply negb_true_iff in Hc. rewrite Hc, (IH Hd). reflexivity.
Qed.

Lemma splitFirst_clean (d : string) :
  noWhiteSpace d = true -> splitFirst d = (d, None).
Proof.
  induction d as [|c d IH]; simpl; [reflexivity|].
  intros H. apply andb_prop in H. destruct H as (Hc & Hd).
  apply negb_true_iff in Hc. rewrite Hc, (IH Hd). reflexivity.
Qed.

Lemma splitFirst_match (w s after : string) :
  w <> EmptyString -> matchSeparator (w ++ s) = Some after ->
  splitFirst (w ++ s) = (EmptyString, Some after).
Proof.
  intros Hne E. destruct w as [|c w]; [congruence|].
  change (String c w ++ s)%string with (String c (w ++ s)) in *.
  cbn [splitFirst]. rewrite E. reflexivity.
Qed.

Lemma skipWhiteSpace_noWhiteSpace (s : string) :
  noWhiteSpace s = true -> skipWhiteSpace s = s.
Proof.
  destruct s as [|c s]; [reflexivity|]. simpl.
  intros H. apply andb_prop in H. destruct H as (Hc & _).
  apply negb_true_iff in Hc. rewrite Hc. reflexivity.
Qed.

Lemma trim_noWhiteSpace (s : string) : noWhiteSpace s = true -> trim s = s.
Proof.
  intros H. unfold trim. rewrite (skipWhiteSpace_noWhiteSpace s H).
  induction s as [|c s IH]; simpl; [reflexivity|].
  simpl in H. apply andb_prop in H. destruct H as (Hc & Hs).
  apply negb_true_iff in Hc. rewrite Hc, (IH Hs). reflexivity.
Qed.

Lemma orNA_nonempty (s : string) : s <> EmptyString -> App.orNA s = s.
Proof. destruct s; [congruence|reflexivity]. Qed.

Lemma append_empty_r (s : string) : (s ++ EmptyString)%string = s.
Proof. induction s as [|c s IH]; simpl; [reflexivity|]. rewrite IH. reflexivity. Qed.

(** X17.  The DOB and TOB lines of the clipboard text are the two parts of the
    birth text as typed: for a date and a time without white space, joined
    by white space or by a dash between white space, they are that date and
    that time; a text without white space (so also the form with a [T],
    which the engine reads as date and time) is the DOB whole, and the TOB
    is N/A; for the empty text both are N/A. *)
Theorem clipboard_birth_parts
        (input : App.FormInput) (d t w1 w2 : string) :
  noWhiteSpace d = true -> d <> EmptyString ->
  noWhiteSpace t = true -> t <> EmptyString ->
  allWhiteSpace w1 = true -> w1 <> EmptyString ->
  allWhiteSpace w2 = true -> w2 <> EmptyString ->
  (App.form_birthDateTime input = (d ++ w1 ++ "-" ++ w2 ++ t)%string ->
   App.dob input = d /\ App.tob input = t) /\
  (App.form_birthDateTime input = (d ++ w1 ++ t)%string ->
   App.dob input = d /\ App.tob input = t) /\
  (App.form_birthDateTime input = d ->
   App.dob input = d /\ App.tob input = "N/A"%string) /\
  (App.form_birthDateTime input = EmptyString ->
   App.dob input = "N/A"%string /\ App.tob input = "N/A"%string).
Proof.
  intros Hd Hdne Ht Htne Hw1 Hne1 Hw2 Hne2.
  pose proof (skipWhiteSpace_noWhiteSpace t Ht) as Hclean.
  unfold App.dob, App.tob, part0, part1.
  split; [|split; [|split]]; intros ->; split.
  - rewrite (splitFirst_skip d _ Hd).
    rewrite (splitFirst_match w1 _ t Hne1
               (matchSeparator_dash w1 w2 t Hw1 Hne1 Hw2 Hne2 Hclean)).
    cbn [fst snd]. rewrite append_empty_r, (trim_noWhiteSpace d Hd).
    apply orNA_nonempty. exact Hdne.
  - rewrite (splitFirst_skip d _ Hd).
    rewrite (splitFirst_match w1 _ t Hne1
               (matchSeparator_dash w1 w2 t Hw1 Hne1 Hw2 Hne2 Hclean)).
    cbn [fst snd]. rewrite (splitFirst_clean t Ht). cbn [fst].
    rewrite (trim_noWhiteSpace t Ht). apply orNA_nonempty. exact Htne.
  - rewrite (splitFirst_skip d _ Hd).
    rewrite (splitFirst_match w1 t t Hne1); cbn [fst snd].
    + rewrite append_empty_r, (trim_noWhiteSpace d Hd).
      apply orNA_nonempty. exact Hdne.
    + apply matchSeparator_alone; try assumption.
      intros c rest E. rewrite E in Ht. simpl in Ht.
      apply andb_prop in Ht. destruct Ht as (Hc & _).
      apply negb_true_iff in Hc. exact Hc.
  - rewrite (splitFirst_skip d _ Hd).
    rewrite (splitFirst_match w1 t t Hne1); cbn [fst snd].
    + rewrite (splitFirst_clean t Ht). cbn [fst].
      rewrite (trim_noWhiteSpace t Ht). apply orNA_nonempty. exact Htne.
    + apply matchSeparator_alone; try assumption.
      intros c rest E. rewrite E in Ht. simpl in Ht.
      apply andb_prop in Ht. destruct Ht as (Hc & _).
      apply negb_true_iff in Hc. exact Hc.
  - rewrite (splitFirst_clean d Hd). cbn [fst].
    rewrite (trim_noWhiteSpace d Hd). apply orNA_nonempty. exact Hdne.
  - rewrite (splitFirst_clean d Hd). reflexivity.
  - reflexivity.
  - reflexivity.
Qed.

Lemma clipboard_birth_parts_witness :
  App.dob (App.st_input formExample) = "2024/01/01"%string /\
  App.tob (App.st_input formExample) = "10:00"%string.
Proof.
  destruct (clipboard_birth_parts (App.st_input formExample)
              "2024/01/01" "10:00" " " " "
              eq_refl ltac:(discriminate) eq_refl ltac:(discriminate)
              eq_refl ltac:(discriminate) eq_refl ltac:(discriminate))
    as (H & _).
  exact (H eq_refl).
Defined.

(** ** src/App.tsx: formatThreshold *)

Lemma Qfloor_unique (x : Q) (k : Z) :
  inject_Z k <= x -> x < inject_Z k + 1 -> Qfloor x = k.
Proof.
  intros Hlo Hhi.
  pose proof (Qfloor_le x) as A. pose proof (Qlt_floor x) as B.
  rewrite inject_Z_plus in B. change (inject_Z 1) with 1 in B.
  assert (C : inject_Z (Qfloor x) < inject_Z (k + 1)).
  { rewrite inject_Z_plus. change (inject_Z 1) with 1. lra. }
  assert (D : inject_Z k < inject_Z (Qfloor x + 1)).
  { rewrite inject_Z_plus. change (inject_Z 1) with 1. lra. }
  rewrite <- Zlt_Qlt in C, D. lia.
Qed.

Lemma inject_Z_tenfold (k : Z) : inject_Z (10 * k) == inject_Z k * 10.
Proof. rewrite inject_Z_mult. change (inject_Z 10) with 10. ring. Qed.

Lemma Math_round_tenfold (v : Q) (n : Z) :
  v == inject_Z n -> Math_round (v * 10) = (10 * n)%Z.
Proof.
  intros E. unfold Math_round. apply Qfloor_unique;
    rewrite E, inject_Z_tenfold; lra.
Qed.

Lemma substring_prefix (a b : string) :
  substring 0 (String.length a) (a ++ b) = a.
Proof. induction a as [|c a IH]; simpl; [destruct b; reflexivity|]. rewrite IH. reflexivity. Qed.

Lemma substring_suffix (a b : string) :
  substring (String.length a) (String.length b) (a ++ b) = b.
Proof.
  induction a as [|c a IH]; simpl; [|exact IH].
  induction b as [|c b IHb]; simpl; [reflexivity|]. rewrite IHb. reflexivity.
Qed.

Lemma length_app (a b : string) :
  String.length (a ++ b) = (String.length a + String.length b)%nat.
Proof. induction a as [|c a IH]; simpl; [reflexivity|]. rewrite IH. reflexivity. Qed.

Lemma strip_point_zero (a : string) :
  (if endsWith (a ++ ".0") ".0" then slice_0 (a ++ ".0") 2 else (a ++ ".0")%string)
  = a.
Proof.
  unfold endsWith, slice_0. rewrite length_app.
  change (String.length ".0") with 2%nat.
  replace (String.length a + 2 - 2)%nat with (String.length a) by lia.
  replace (2 <=? String.length a + 2)%nat with true
    by (symmetry; apply Nat.leb_le; lia).
  change 2%nat with (String.length ".0") at 1.
  rewrite substring_suffix, substring_prefix. reflexivity.
Qed.

Lemma Number_toString_sign (n : Z) :
  ((if (n <? 0)%Z then "-" else EmptyString) ++ Number_toString (Z.abs n))%string
  = Number_toString n.
Proof. destruct n; reflexivity. Qed.

Lemma formatNumber_whole (v : Q) (n : Z) :
  v == inject_Z n -> (Z.abs n < 10 ^ 21)%Z ->
  App.formatNumber v = Some (Number_toString n).
Proof.
  intros E Hn. unfold App.formatNumber.
  rewrite (Math_round_tenfold v n E).
  set (rounded := inject_Z (10 * n) / 10).
  assert (Er : rounded == inject_Z n).
  { unfold rounded. rewrite inject_Z_tenfold. field. }
  assert (Eabs : Qabs rounded == inject_Z (Z.abs n)).
  { rewrite Er. destruct n; reflexivity. }
  unfold toFixed_1.
  replace (Qabs rounded >=? inject_Z (10 ^ 21)) with false.
  2:{ symmetry. apply geb_false_iff. rewrite Eabs, <- Zlt_Qlt. exact Hn. }
  replace (Qfloor (Qabs rounded * 10 + (1 # 2))) with (10 * Z.abs n)%Z.
  2:{ symmetry. apply Qfloor_unique; rewrite Eabs, inject_Z_tenfold; lra. }
  replace (10 * Z.abs n / 10)%Z with (Z.abs n)
    by (rewrite Z.mul_comm, Z.div_mul; lia).
  replace (10 * Z.abs n mod 10)%Z with 0%Z
    by (rewrite Z.mul_comm, Z.mod_mul; lia).
  replace (rounded <? 0) with (n <? 0)%Z.
  2:{ destruct (n <? 0)%Z eqn:C; symmetry.
      - apply ltb_true_iff. rewrite Er. change 0 with (inject_Z 0).
        rewrite <- Zlt_Qlt. lia.
      - apply ltb_false_iff. rewrite Er. change 0 with (inject_Z 0).
        rewrite <- Zle_Qle. lia. }
  cbv zeta. change (Number_toString 0) with "0"%string.
  replace ((if (n <? 0)%Z then "-"%string else EmptyString)
           ++ Number_toString (Z.abs n) ++ "." ++ "0")%string
    with (((if (n <? 0)%Z then "-"%string else EmptyString)
           ++ Number_toString (Z.abs n)) ++ ".0")%string
    by (rewrite string_app_assoc; reflexivity).
  rewrite strip_point_zero, Number_toString_sign. reflexivity.
Qed.

(** X18.  A whole number is shown without decimals: [formatThreshold] gives its
    decimal digits, for a numeric threshold as for a text that [parseFloat]
    reads as that number.  So of a range text that [parseFloat] reads up to
    its dash, the clipboard keeps the lower bound only.  (The bound keeps
    ten times the number among the integers a double holds exactly.) *)
Theorem formatThreshold_whole_numbers (conv : Conversions) (n : Z) :
  (10 * Z.abs n <= 2 ^ 53)%Z ->
  App.formatThreshold conv (TNumber (inject_Z n)) = Some (Number_toString n) /\
  (forall (text : string) (v : Q),
     parseFloat conv text = Some v -> v == inject_Z n ->
     App.formatThreshold conv (TString text) = Some (Number_toString n)).
Proof.
  intros Hsmall.
  assert (Hn : (Z.abs n < 10 ^ 21)%Z).
  { change (2 ^ 53)%Z with 9007199254740992%Z in Hsmall.
    change (10 ^ 21)%Z with 1000000000000000000000%Z. lia. }
  split.
  - apply formatNumber_whole; [reflexivity|exact Hn].
  - intros text v Hp Hv. unfold App.formatThreshold. rewrite Hp.
    apply formatNumber_whole; assumption.
Qed.

Lemma formatThreshold_whole_numbers_witness :
  App.formatThreshold ReferenceConversions.conv (TNumber 14) = Some "14"%string /\
  App.formatThreshold ReferenceConversions.conv
    (threshold (th_phototherapy (Part000.getMaiselsThresholds 27 5.5)))
    = Some "5"%string.
Proof.
  destruct (formatThreshold_whole_numbers ReferenceConversions.conv 14
              ltac:(vm_compute; discriminate)) as (A & _).
  split; [exact A|].
  destruct (formatThreshold_whole_numbers ReferenceConversions.conv 5
              ltac:(vm_compute; discriminate)) as (_ & B).
  exact (B "5-6"%string (inject_Z 5) eq_refl (Qeq_refl _)).
Defined.

(** ** The two copies of the engine, side by side *)

(** X19.  From 35 weeks on the two copies return the same, whatever the input;
    under 35 weeks they accept the same inputs and differ in the two
    thresholds only. *)
Theorem copies_agree_outside_maisels (host : Host) (input : CalculationInput) :
  (35 <= aogDecimalOf (gestationalWeeks input) (gestationalDays input) ->
   Part001.calculateBilirubinRisk host input
     = Part000.calculateBilirubinRisk host input) /\
  (Part001.calculateBilirubinRisk host input = Normal None <->
   Part000.calculateBilirubinRisk host input = Normal None) /\
  (forall r1 r0,
     Part001.calculateBilirubinRisk host input = Normal (Some r1) ->
     Part000.calculateBilirubinRisk host input = Normal (Some r0) ->
     dob r1 = dob r0 /\ tob r1 = tob r0 /\ hol r1 = hol r0 /\
     tcb r1 = tcb r0 /\ aog r1 = aog r0 /\ bhutaniZone r1 = bhutaniZone r0).
Proof.
  rewrite Part001_shape, Part000_shape.
  destruct (acceptance_cases host input) as [(b & m & Hacc)|(Hrej & _)].
  - destruct (calculateWith_accepts Part001.getMaiselsThresholds host input
                b m Hacc) as (z1 & t1 & Hz1 & Ht1 & E1).
    destruct (calculateWith_accepts Part000.getMaiselsThresholds host input
                b m Hacc) as (z0 & t0 & Hz0 & Ht0 & E0).
    rewrite E1, E0. rewrite Hz1 in Hz0. injection Hz0 as <-.
    split; [|split].
    + intros Hge. apply geb_true_iff in Hge. rewrite Hge in Ht1, Ht0.
      rewrite Ht1 in Ht0. injection Ht0 as <-. reflexivity.
    + split; discriminate.
    + intros r1 r0 [= <-] [= <-]. repeat split.
  - rewrite !(calculateWith_rejects _ host input Hrej).
    split; [reflexivity|]. split; [tauto|]. intros r1 r0 [=].
Qed.

(** X20.  Under 35 weeks the number the copy of part_001 reports is the upper end
    of the range the copy of part_000 reports, for both therapies and every
    band.  Hence ABOVE in part_000 is ABOVE in part_001, and BELOW in
    part_000 is BELOW in part_001; the copies part on the range itself,
    which part_000 calls WITHIN and part_001 BELOW, but for a value at the
    upper end, which part_001 calls ABOVE. *)
Theorem maisels_copies_related (aog tcb : Q) :
  let r1 := Part001.getMaiselsThresholds aog tcb in
  let r0 := Part000.getMaiselsThresholds aog tcb in
  let band := Part000.maiselsData (maiselsKeyOf aog) in
  threshold (th_phototherapy r1) = TNumber (inject_Z (snd (Part000.pl band))) /\
  threshold (th_exchangeTransfusion r1)
    = TNumber (inject_Z (snd (Part000.dvet band))) /\
  (status (th_phototherapy r0) = ABOVE -> status (th_phototherapy r1) = ABOVE) /\
  (status (th_phototherapy r0) = BELOW -> status (th_phototherapy r1) = BELOW) /\
  (status (th_phototherapy r0) = WITHIN ->
   (status (th_phototherapy r1) = ABOVE <->
    tcb == inject_Z (snd (Part000.pl band)))) /\
  (status (th_exchangeTransfusion r0) = ABOVE ->
   status (th_exchangeTransfusion r1) = ABOVE) /\
  (status (th_exchangeTransfusion r0) = BELOW ->
   status (th_exchangeTransfusion r1) = BELOW) /\
  (status (th_exchangeTransfusion r0) = WITHIN ->
   (status (th_exchangeTransfusion r1) = ABOVE <->
    tcb == inject_Z (snd (Part000.dvet band)))).
Proof.
  cbv zeta.
  unfold Part001.getMaiselsThresholds, Part000.getMaiselsThresholds.
  destruct (maiselsKeyOf aog);
    cbn [Part001.maiselsData Part000.maiselsData Part001.pl Part001.dvet
         Part000.pl Part000.dvet th_phototherapy th_exchangeTransfusion
         status threshold fst snd];
    unfold Part000.getStatus;
    (split; [reflexivity|]); (split; [reflexivity|]);
    repeat match goal with
           | |- context [if ?c then _ else _] => destruct c eqn:?
           end;
    num_prop; unfold inject_Z in *;
    repeat split; intros; try reflexivity; try discriminate; try lra;
    exfalso; lra.
Qed.

Lemma copies_agree_outside_maisels_witness :
  35 <= aogDecimalOf 38 0 /\
  Part001.calculateBilirubinRisk ReferenceHost.host
    (mkInput "2024-01-01T10:00" "2024-01-02T10:00" 10 38 0 false)
  = Part000.calculateBilirubinRisk ReferenceHost.host
      (mkInput "2024-01-01T10:00" "2024-01-02T10:00" 10 38 0 false).
Proof.
  split; [vm_compute; discriminate|].
  apply (copies_agree_outside_maisels ReferenceHost.host
           (mkInput "2024-01-01T10:00" "2024-01-02T10:00" 10 38 0 false)).
  vm_compute; discriminate.
Defined.
